(** * The tool server of the Penguin chatbot: a shallow embedding

    Source: [src/tool-server/server.py], a Flask application with the
    routes /health, /time, /weather, /search and /system.

    The handlers are embedded as functions in a small effect monad that
    threads an environment (the upstream, the clock, the host) and a log of
    the outside calls a handler makes.  Python values that cross the
    handlers (query parameters, parsed JSON, exception descriptions) are
    modelled the way the interpreter has them. *)

From Stdlib Require Import QArith Qround Permutation Sorted.
From stdpp Require Import gmap strings list fin_maps.

Set Warnings "-register-all".

Open Scope Z_scope.

(** ** Python [str] and [bytes] *)

(** A Python [str] is a sequence of Unicode code points. *)
Definition str : Type := list N.

(** [bytes.decode()], i.e. strict UTF-8: overlong forms, surrogates and code
    points above U+10FFFF raise [UnicodeDecodeError] ([None] here). *)
Definition cont (b : N) : bool := ((128 <=? b) && (b <=? 191))%N.

Definition in_range (lo hi b : N) : bool := ((lo <=? b) && (b <=? hi))%N.

Fixpoint utf8_decode_N (bs : list N) : option str :=
  match bs with
  | [] => Some []
  | b0 :: r0 =>
    if (b0 <? 128)%N then cons b0 <$> utf8_decode_N r0
    else if in_range 194 223 b0 then
      match r0 with
      | b1 :: r1 =>
        if cont b1
        then cons ((b0 - 192) * 64 + (b1 - 128))%N <$> utf8_decode_N r1
        else None
      | _ => None
      end
    else if in_range 224 239 b0 then
      match r0 with
      | b1 :: b2 :: r2 =>
        let lo := if (b0 =? 224)%N then 160%N else 128%N in
        let hi := if (b0 =? 237)%N then 159%N else 191%N in
        if in_range lo hi b1 && cont b2
        then cons ((b0 - 224) * 4096 + (b1 - 128) * 64 + (b2 - 128))%N
               <$> utf8_decode_N r2
        else None
      | _ => None
      end
    else if in_range 240 244 b0 then
      match r0 with
      | b1 :: b2 :: b3 :: r3 =>
        let lo := if (b0 =? 240)%N then 144%N else 128%N in
        let hi := if (b0 =? 244)%N then 143%N else 191%N in
        if in_range lo hi b1 && cont b2 && cont b3
        then cons ((b0 - 240) * 262144 + (b1 - 128) * 4096
                   + (b2 - 128) * 64 + (b3 - 128))%N
               <$> utf8_decode_N r3
        else None
      | _ => None
      end
    else None
  end.

Definition bytes : Type := list Byte.byte.

Definition decode (b : bytes) : option str := utf8_decode_N (Byte.to_N <$> b).

(** String literals of the source file, which is UTF-8 text. *)
Definition lit (s : string) : str :=
  default [] (decode (String.list_byte_of_string s)).

Arguments lit s%_string.

(** [''] *)
Definition empty_str : str := [].

(** [str.isspace] for one character: the code points CPython strips. *)
Definition isspace (c : N) : bool :=
  (in_range 9 13 c || in_range 28 32 c || (c =? 133) || (c =? 160)
   || (c =? 5760) || in_range 8192 8202 c || (c =? 8232) || (c =? 8233)
   || (c =? 8239) || (c =? 8287) || (c =? 12288))%N.

Fixpoint drop_while {A} (p : A → bool) (l : list A) : list A :=
  match l with
  | [] => []
  | x :: l' => if p x then drop_while p l' else l
  end.

(** [s.strip()] *)
Definition strip (s : str) : str :=
  rev (drop_while isspace (rev (drop_while isspace s))).

Definition NL : N := 10%N.

(** [s.split('\n')]: never empty, [''.split('\n') == ['']]. *)
Fixpoint split_nl (s : str) : list str :=
  match s with
  | [] => [[]]
  | c :: s' =>
    if (c =? NL)%N then [] :: split_nl s'
    else match split_nl s' with
         | [] => [[c]]
         | l :: ls => (c :: l) :: ls
         end
  end.

Fixpoint starts_with (needle hay : str) : bool :=
  match needle, hay with
  | [], _ => true
  | a :: n', b :: h' => (a =? b)%N && starts_with n' h'
  | _ :: _, [] => false
  end.

(** [s.count(needle)] for a non-empty needle: occurrences found scanning
    left to right, each match skipping over its own characters. *)
Fixpoint count_from (needle : str) (skip : nat) (hay : str) : Z :=
  match hay with
  | [] => 0
  | _ :: hay' =>
    match skip with
    | S k => count_from needle k hay'
    | O =>
      if starts_with needle hay
      then 1 + count_from needle (length needle - 1) hay'
      else count_from needle 0 hay'
    end
  end.

Definition count (needle hay : str) : Z := count_from needle 0 hay.

(** Truthiness of a [str] and of the optional result of [args.get]. *)
Definition nonempty (s : str) : bool :=
  match s with [] => false | _ => true end.

Definition truthy (o : option str) : bool :=
  match o with Some s => nonempty s | None => false end.

(** ** Parsed JSON, as [response.json()] returns it and [jsonify] takes it *)

(** A [float] is modelled by the rational it denotes; the handlers never
    compute with the floats of a JSON document. *)
Inductive json : Type :=
| JNull
| JBool (b : bool)
| JInt (z : Z)
| JFloat (q : Q)
| JStr (s : str)
| JArr (l : list json)
| JObj (m : gmap str json).

Definition type_name (v : json) : str :=
  match v with
  | JNull => lit "NoneType"
  | JBool _ => lit "bool"
  | JInt _ => lit "int"
  | JFloat _ => lit "float"
  | JStr _ => lit "str"
  | JArr _ => lit "list"
  | JObj _ => lit "dict"
  end.

Definition of_opt_str (o : option str) : json :=
  match o with Some s => JStr s | None => JNull end.

(** ** Exceptions *)

(** Exceptions are kept as far as [str(e)] needs: the ones the interpreter
    raises in the handlers, and those of library code (requests, json,
    subprocess, psutil) with their class name and description. *)
Inductive pyexc : Type :=
| KeyError (key : str)
| TypeError (msg : str)
| AttributeError (msg : str)
| LibError (cls : str) (description : str).

(** [repr] of a key without quotes, backslashes or control characters, as
    all keys of the handlers are. *)
Definition repr_key (k : str) : str := lit "'" ++ k ++ lit "'".

(** [str(e)] *)
Definition exc_str (e : pyexc) : str :=
  match e with
  | KeyError k => repr_key k
  | TypeError m => m
  | AttributeError m => m
  | LibError _ d => d
  end.

(** ** Outcomes and the effect monad *)

Inductive outcome (A : Type) : Type :=
| Done (a : A)
| Raised (e : pyexc)
| Blocked.

Arguments Done {A} a.
Arguments Raised {A} e.
Arguments Blocked {A}.

(** A computation reads an environment [E] and appends to a log of the
    outside calls it makes; it returns, raises, or never comes back. *)
Definition eff (E L A : Type) : Type := E → list L → outcome A * list L.

Section Eff.
Context {E L : Type}.

Definition ret {A} (a : A) : eff E L A := λ _ log, (Done a, log).

Definition raise {A} (e : pyexc) : eff E L A := λ _ log, (Raised e, log).

Definition bind {A B} (c : eff E L A) (k : A → eff E L B) : eff E L B :=
  λ env log,
    match c env log with
    | (Done a, log') => k a env log'
    | (Raised e, log') => (Raised e, log')
    | (Blocked, log') => (Blocked, log')
    end.

(** [try: c  except Exception as e: h e]; a bare [except:] ignores [e]. *)
Definition try_except {A} (c : eff E L A) (h : pyexc → eff E L A)
  : eff E L A :=
  λ env log,
    match c env log with
    | (Raised e, log') => h e env log'
    | r => r
    end.

(** An outside call: logged, its outcome read off the environment. *)
Definition call {A} (ev : L) (f : E → outcome A) : eff E L A :=
  λ env log, (f env, log ++ [ev]).

Definition lift {A} (o : outcome A) : eff E L A := λ _ log, (o, log).

(** A read of the environment that is not logged and may raise. *)
Definition ask {A} (f : E → outcome A) : eff E L A :=
  λ env log, (f env, log).

Definition run {A} (c : eff E L A) (env : E) : outcome A * list L :=
  c env [].
End Eff.

Notation "x <- c ;; k" := (bind c (λ x, k))
  (at level 100, c at next level, right associativity).

Fixpoint map_eff {E L A B} (f : A → eff E L B) (l : list A)
  : eff E L (list B) :=
  match l with
  | [] => ret []
  | x :: l' => y <- f x;; ys <- map_eff f l';; ret (y :: ys)
  end.

(** ** Subscripting, [dict.get] and slicing on parsed JSON *)

Definition not_subscriptable (v : json) : pyexc :=
  TypeError (lit "'" ++ type_name v ++ lit "' object is not subscriptable").

Definition no_attribute_get (v : json) : pyexc :=
  AttributeError
    (lit "'" ++ type_name v ++ lit "' object has no attribute 'get'").

(** [v[k]] for a [str] key [k].  The texts of the [TypeError]s are those of
    CPython 3.11; they vary a little between versions and no statement
    below depends on their wording. *)
Definition py_getitem (v : json) (k : str) : outcome json :=
  match v with
  | JObj m =>
    match m !! k with
    | Some x => Done x
    | None => Raised (KeyError k)
    end
  | JArr _ =>
    Raised (TypeError (lit "list indices must be integers or slices, not str"))
  | JStr _ =>
    Raised (TypeError (lit "string indices must be integers, not 'str'"))
  | _ => Raised (not_subscriptable v)
  end.

(** [v.get(k, d)]; [v.get(k)] is [v.get(k, None)] *)
Definition py_get (v : json) (k : str) (d : json) : outcome json :=
  match v with
  | JObj m => Done (default d (m !! k))
  | _ => Raised (no_attribute_get v)
  end.

(** The items a [for] loop sees in [v[:n]]: a list gives its first items, a
    [str] its first characters, anything else cannot be sliced (a dict
    rejects the slice as a key: unhashable before CPython 3.12, not found
    since). *)
Definition py_slice_items (v : json) (n : nat) : outcome (list json) :=
  match v with
  | JArr l => Done (take n l)
  | JStr s => Done ((λ c, JStr [c]) <$> take n s)
  | JObj _ => Raised (TypeError (lit "unhashable type: 'slice'"))
  | _ => Raised (not_subscriptable v)
  end.

(** ** Flask: query parameters and responses *)

(** [request.args] is a multi-dict: [get] returns the first value of a key. *)
Definition multidict : Type := list (str * str).

Fixpoint args_get (args : multidict) (k : str) : option str :=
  match args with
  | [] => None
  | (k', v) :: args' => if decide (k' = k) then Some v else args_get args' k
  end.

(** A parameter inside an f-string; [None] would print as its name. *)
Definition format_arg (o : option str) : str :=
  match o with Some s => s | None => lit "None" end.

Record response : Type := { status : Z; body : json }.

Definition jsonify (v : json) : response := {| status := 200; body := v |}.

(** [return jsonify(v), code] *)
Definition with_status (r : response) (code : Z) : response :=
  {| status := code; body := body r |}.

Definition error_body (msg : str) : json := JObj {[ lit "error" := JStr msg ]}.

(** ** The upstreams, reached through [requests.get] *)

Record outbound : Type :=
  { ob_url : str; ob_params : list (str * str); ob_timeout : Z }.

(** What came back: [response.json()] parses the body or raises. *)
Record http_response : Type := { resp_json : outcome json }.

(** An upstream answers an outbound request, or the call raises
    (connection error, timeout). *)
Definition upstream : Type := outbound → outcome http_response.

Definition net (A : Type) : Type := eff upstream outbound A.

Definition requests_get (url : str) (params : list (str * str)) (timeout : Z)
  : net http_response :=
  let ob := {| ob_url := url; ob_params := params; ob_timeout := timeout |} in
  call ob (λ up, up ob).

Definition getitem (v : json) (k : string) : net json :=
  lift (py_getitem v (lit k)).

(** ** /weather *)

Definition weather_url (lat lon : option str) : str :=
  lit "https://api.open-meteo.com/v1/forecast?latitude=" ++ format_arg lat
  ++ lit "&longitude=" ++ format_arg lon
  ++ lit "&current=temperature_2m,weathercode,windspeed_10m&timezone=auto".

Definition get_weather (args : multidict) : net response :=
  let lat := args_get args (lit "lat") in
  let lon := args_get args (lit "lon") in
  if negb (truthy lat) || negb (truthy lon) then
    ret (with_status
           (jsonify (error_body (lit "lat and lon parameters required"))) 400)
  else
    try_except
      (let url := weather_url lat lon in
       response <- requests_get url [] 5;;
       data <- lift (resp_json response);;
       c1 <- getitem data "current";;
       temperature <- getitem c1 "temperature_2m";;
       u1 <- getitem data "current_units";;
       temperature_unit <- getitem u1 "temperature_2m";;
       c2 <- getitem data "current";;
       weathercode <- getitem c2 "weathercode";;
       c3 <- getitem data "current";;
       windspeed <- getitem c3 "windspeed_10m";;
       u2 <- getitem data "current_units";;
       windspeed_unit <- getitem u2 "windspeed_10m";;
       timezone <- getitem data "timezone";;
       ret (jsonify (JObj {[
         lit "temperature" := temperature;
         lit "temperature_unit" := temperature_unit;
         lit "weathercode" := weathercode;
         lit "windspeed" := windspeed;
         lit "windspeed_unit" := windspeed_unit;
         lit "timezone" := timezone ]})))
      (λ e, ret (with_status (jsonify (error_body (exc_str e))) 500)).

(** ** /search *)

Definition searxng_url : str := lit "http://192.168.61.112:8888/search".

(** One pass of the loop body: the dict appended to [results]. *)
Definition search_entry (r : json) : net json :=
  title <- lift (py_get r (lit "title") JNull);;
  url <- lift (py_get r (lit "url") JNull);;
  snippet <- lift (py_get r (lit "content") (JStr empty_str));;
  ret (JObj {[ lit "title" := title;
               lit "url" := url;
               lit "snippet" := snippet ]}).

Definition web_search (args : multidict) : net response :=
  let query := args_get args (lit "q") in
  if negb (truthy query) then
    ret (with_status (jsonify (error_body (lit "q parameter required"))) 400)
  else
    try_except
      ((* past the guard [query] is a [str], used as it is *)
       let params := [ (lit "q", format_arg query);
                       (lit "format", lit "json");
                       (lit "categories", lit "general") ] in
       response <- requests_get searxng_url params 10;;
       data <- lift (resp_json response);;
       found <- lift (py_get data (lit "results") (JArr []));;
       first5 <- lift (py_slice_items found 5);;
       results <- map_eff search_entry first5;;
       ret (jsonify (JObj {[ lit "results" := JArr results ]})))
      (λ e, ret (with_status (jsonify (error_body (exc_str e))) 500)).

(** ** /health and /time *)

(** A naive [datetime], as [datetime.now()] returns it. *)
Record datetime : Type :=
  { year : N; month : N; day : N;
    hour : N; minute : N; second : N; microsecond : N }.

(** The host clock: its successive readings, and the name of the local time
    zone at a naive local time ([d.astimezone().tzname()]); the conversion
    raises where the local time cannot be turned into a point in time, as at
    the two ends of the range of [datetime]. *)
Record clock : Type :=
  { reading : nat → datetime; local_tzname : datetime → outcome str }.

Inductive clock_event : Type := ReadNow.

Definition timed (A : Type) : Type := eff clock clock_event A.

(** [datetime.now()]: every call takes the next reading. *)
Definition datetime_now : timed datetime :=
  λ env log, (Done (reading env (length log)), log ++ [ReadNow]).

Fixpoint uint_digits (d : Decimal.uint) : str :=
  match d with
  | Decimal.Nil => []
  | Decimal.D0 d => 48%N :: uint_digits d
  | Decimal.D1 d => 49%N :: uint_digits d
  | Decimal.D2 d => 50%N :: uint_digits d
  | Decimal.D3 d => 51%N :: uint_digits d
  | Decimal.D4 d => 52%N :: uint_digits d
  | Decimal.D5 d => 53%N :: uint_digits d
  | Decimal.D6 d => 54%N :: uint_digits d
  | Decimal.D7 d => 55%N :: uint_digits d
  | Decimal.D8 d => 56%N :: uint_digits d
  | Decimal.D9 d => 57%N :: uint_digits d
  end.

(** [str(n)] *)
Definition dec (n : N) : str := uint_digits (N.to_uint n).

(** ['%0wd' % n] *)
Definition pad0 (w : nat) (n : N) : str :=
  replicate (w - length (dec n)) 48%N ++ dec n.

(** [d.strftime('%H:%M:%S')] *)
Definition strftime_HMS (d : datetime) : str :=
  pad0 2 (hour d) ++ lit ":" ++ pad0 2 (minute d) ++ lit ":"
  ++ pad0 2 (second d).

(** [d.strftime('%Y-%m-%d')].  [%Y] is the C library's: glibc prints the
    year as a plain decimal number, without padding (recent CPython pads it
    to four digits itself; the two agree from the year 1000 on). *)
Definition strftime_Ymd (d : datetime) : str :=
  dec (year d) ++ lit "-" ++ pad0 2 (month d) ++ lit "-" ++ pad0 2 (day d).

(** The fraction [isoformat] appends: nothing for a whole second. *)
Definition fraction (d : datetime) : str :=
  if (microsecond d =? 0)%N then [] else lit "." ++ pad0 6 (microsecond d).

(** [d.isoformat()] of a naive datetime *)
Definition isoformat (d : datetime) : str :=
  pad0 4 (year d) ++ lit "-" ++ pad0 2 (month d) ++ lit "-" ++ pad0 2 (day d)
  ++ lit "T"
  ++ pad0 2 (hour d) ++ lit ":" ++ pad0 2 (minute d) ++ lit ":"
  ++ pad0 2 (second d)
  ++ fraction d.

Definition health_check : timed response :=
  now <- datetime_now;;
  ret (jsonify (JObj {[ lit "status" := JStr (lit "ok");
                        lit "timestamp" := JStr (isoformat now) ]})).

Definition get_time : timed response :=
  now <- datetime_now;;
  tzname <- ask (λ env, local_tzname env now);;
  ret (jsonify (JObj {[ lit "datetime" := JStr (isoformat now);
                        lit "date" := JStr (strftime_Ymd now);
                        lit "time" := JStr (strftime_HMS now);
                        lit "timezone" := JStr tzname ]})).

(** ** /system: the host *)

(** [psutil.virtual_memory()] and [psutil.disk_usage('/')] *)
Record svmem : Type := { vm_total : Z; vm_used : Z; vm_percent : Q }.

Record sdiskusage : Type := { du_total : Z; du_used : Z; du_percent : Q }.

(** The [info] dict of one process from [psutil.process_iter]: a field the
    process does not give away is [None]. *)
Record procinfo : Type := { p_name : option str; p_cpu_percent : option Q }.

(** What a launched command does: it cannot be started, it exits after some
    time with a status and its standard output, or it never exits. *)
Inductive behaviour : Type :=
| NotStarted (e : pyexc)
| Exits (elapsed : N) (code : Z) (stdout : bytes)
| NeverExits.

Record invocation : Type := { argv : list str; timeout : option N }.

(** Every library read may raise.  [psutil.virtual_memory] and
    [psutil.disk_usage] are sampled anew on each call, so they are indexed
    by the call's position in the handler. *)
Record host : Type :=
  { platform_node : outcome str;
    platform_release : outcome str;
    platform_system : outcome str;
    platform_version : outcome str;
    platform_machine : outcome str;
    psutil_cpu_percent : outcome Q;
    psutil_cpu_count : outcome (option Z);
    psutil_virtual_memory : nat → outcome svmem;
    psutil_disk_usage : nat → outcome sdiskusage;
    subprocess : list str → behaviour;
    psutil_process_iter : outcome (list procinfo) }.

Definition sys (A : Type) : Type := eff host invocation A.

Definition TimeoutExpired : pyexc :=
  LibError (lit "TimeoutExpired") (lit "Command timed out").

Definition CalledProcessError : pyexc :=
  LibError (lit "CalledProcessError")
           (lit "Command returned non-zero exit status").

Definition UnicodeDecodeError : pyexc :=
  LibError (lit "UnicodeDecodeError")
           (lit "'utf-8' codec can't decode byte: invalid start byte").

(** [subprocess.check_output(argv, stderr=DEVNULL, timeout=t)] against a
    command's behaviour; [timeout=None], the default, waits for ever. *)
Definition check_output_of (t : option N) (b : behaviour) : outcome bytes :=
  match b with
  | NotStarted e => Raised e
  | Exits elapsed code out =>
    match t with
    | Some limit =>
      if (limit <? elapsed)%N then Raised TimeoutExpired
      else if code =? 0 then Done out else Raised CalledProcessError
    | None => if code =? 0 then Done out else Raised CalledProcessError
    end
  | NeverExits =>
    match t with
    | Some _ => Raised TimeoutExpired
    | None => Blocked
    end
  end.

Definition check_output (cmd : list str) (t : option N) : sys bytes :=
  call {| argv := cmd; timeout := t |}
       (λ env, check_output_of t (subprocess env cmd)).

(** [b.decode()] as a step of a handler *)
Definition decoded (b : bytes) : sys str :=
  lift (match decode b with
        | Some s => Done s
        | None => Raised UnicodeDecodeError
        end).

(** The decimal rounding inside [round(x, 2)]: the exact value of [x] to
    the nearest hundredth, halves to the even one. *)
Definition round2 (q : Q) : Q :=
  let s := (q * 100)%Q in
  let f := Qfloor s in
  let up :=
    match (s - inject_Z f ?= 1 # 2)%Q with
    | Lt => false
    | Gt => true
    | Eq => Z.odd f
    end in
  ((if up then f + 1 else f) # 100)%Q.

(** Rounding to the nearest integer, halves to the even one. *)
Definition rne (q : Q) : Z :=
  let f := Qfloor q in
  match (q - inject_Z f ?= 1 # 2)%Q with
  | Lt => f
  | Gt => f + 1
  | Eq => if Z.odd f then f + 1 else f
  end.

Definition pow2 (k : Z) : Q :=
  if 0 <=? k then inject_Z (2 ^ k) else (1 # Z.to_pos (2 ^ (- k)))%Q.

(** The [float] nearest to a rational, halves to the even mantissa: 53 bits
    of mantissa, exponents down to the subnormals, and no value from 2^1024
    on ([None]). *)
Definition binary64 (q : Q) : option Q :=
  if Qeq_bool q 0 then Some 0%Q
  else
    let a := (Z.abs (Qnum q) # Qden q)%Q in
    let k0 := Z.log2 (Z.abs (Qnum q)) - Z.log2 (Zpos (Qden q)) - 52 in
    let k1 := if Qle_bool (pow2 52) (a / pow2 k0) then k0 else k0 - 1 in
    let k := Z.max k1 (-1074) in
    let m := rne (a / pow2 k) in
    if Qle_bool (pow2 1024) (inject_Z m * pow2 k) then None
    else
      let sign := if Qnum q <? 0 then -1 else 1 in
      Some (Qred (inject_Z (sign * m) * pow2 k)).

Definition OverflowError (msg : str) : pyexc :=
  LibError (lit "OverflowError") msg.

(** [round(n / (1024**3), 2)]: the quotient of the two integers as a
    [float], rounded to two decimals on its exact value, as a [float]
    again. *)
Definition gb (n : Z) : outcome Q :=
  match binary64 (inject_Z n / inject_Z (1024 ^ 3)) with
  | None =>
    Raised (OverflowError (lit "integer division result too large for a float"))
  | Some x =>
    match binary64 (round2 x) with
    | None =>
      Raised (OverflowError (lit "rounded value too large to represent"))
    | Some y => Done y
    end
  end.

Definition of_opt_int (o : option Z) : json :=
  match o with Some z => JInt z | None => JNull end.

Definition of_opt_float (o : option Q) : json :=
  match o with Some q => JFloat q | None => JNull end.

(** [sorted(l, key=key, reverse=True)]: descending, and stable (items with
    equal keys keep their order), which determines the result. *)
Fixpoint insert_desc {A} (key : A → Q) (x : A) (l : list A) : list A :=
  match l with
  | [] => [x]
  | y :: l' =>
    if Qle_bool (key y) (key x) then x :: l else y :: insert_desc key x l'
  end.

Definition sorted_reverse {A} (key : A → Q) (l : list A) : list A :=
  foldr (insert_desc key) [] l.

(** [lambda p: p.info['cpu_percent'] or 0] *)
Definition cpu_key (p : procinfo) : Q :=
  match p_cpu_percent p with
  | None => 0
  | Some q => if Qeq_bool q 0 then 0 else q
  end.

Definition process_entry (p : procinfo) : json :=
  JObj {[ lit "name" := of_opt_str (p_name p);
          lit "cpu_percent" := of_opt_float (p_cpu_percent p) ]}.

(** The dict literal that opens the handler, its values read and computed
    in order. *)
Definition base_info : sys (gmap str json) :=
  hostname <- ask platform_node;;
  kernel <- ask platform_release;;
  system <- ask platform_system;;
  version <- ask platform_version;;
  architecture <- ask platform_machine;;
  cpu_percent <- ask psutil_cpu_percent;;
  cpu_count <- ask psutil_cpu_count;;
  vm0 <- ask (λ env, psutil_virtual_memory env 0%nat);;
  memory_total_gb <- lift (gb (vm_total vm0));;
  vm1 <- ask (λ env, psutil_virtual_memory env 1%nat);;
  memory_used_gb <- lift (gb (vm_used vm1));;
  vm2 <- ask (λ env, psutil_virtual_memory env 2%nat);;
  du0 <- ask (λ env, psutil_disk_usage env 0%nat);;
  disk_total_gb <- lift (gb (du_total du0));;
  du1 <- ask (λ env, psutil_disk_usage env 1%nat);;
  disk_used_gb <- lift (gb (du_used du1));;
  du2 <- ask (λ env, psutil_disk_usage env 2%nat);;
  ret ({[ lit "hostname" := JStr hostname;
          lit "kernel" := JStr kernel;
          lit "os" := JStr (system ++ lit " " ++ version);
          lit "architecture" := JStr architecture;
          lit "cpu_percent" := JFloat cpu_percent;
          lit "cpu_count" := of_opt_int cpu_count;
          lit "memory_total_gb" := JFloat memory_total_gb;
          lit "memory_used_gb" := JFloat memory_used_gb;
          lit "memory_percent" := JFloat (vm_percent vm2);
          lit "disk_total_gb" := JFloat disk_total_gb;
          lit "disk_used_gb" := JFloat disk_used_gb;
          lit "disk_percent" := JFloat (du_percent du2) ]} : gmap str json).

Definition gnome_cmd : list str := [lit "gnome-shell"; lit "--version"].

Definition flatpak_cmd : list str :=
  [lit "flatpak"; lit "list"; lit "--app"; lit "--columns=application"].

Definition dpkg_cmd : list str := [lit "dpkg"; lit "-l"].

Definition gnome_probe (info : gmap str json) : sys (gmap str json) :=
  try_except
    (out <- check_output gnome_cmd None;;
     text <- decoded out;;
     let gnome_version := strip text in
     ret (<[ lit "gnome_version" := JStr gnome_version ]> info))
    (λ _, ret (<[ lit "gnome_version" := JStr (lit "unknown") ]> info)).

(** [[f for f in flatpaks if f]] *)
Definition truthy_items (l : list str) : list str := filter (λ f, nonempty f) l.

Definition flatpak_probe (info : gmap str json) : sys (gmap str json) :=
  try_except
    (out <- check_output flatpak_cmd None;;
     text <- decoded out;;
     let flatpaks := split_nl (strip text) in
     let info := <[ lit "flatpak_count" :=
                      JInt (Z.of_nat (length (truthy_items flatpaks))) ]> info in
     ret (<[ lit "flatpak_apps" :=
               JArr (JStr <$> take 10 (truthy_items flatpaks)) ]> info))
    (λ _, let info := <[ lit "flatpak_count" := JInt 0 ]> info in
          ret (<[ lit "flatpak_apps" := JArr [] ]> info)).

Definition apt_probe (info : gmap str json) : sys (gmap str json) :=
  try_except
    (out <- check_output dpkg_cmd None;;
     text <- decoded out;;
     let apt_count := count (NL :: lit "ii ") text in
     ret (<[ lit "apt_packages_count" := JInt apt_count ]> info))
    (λ _, ret (<[ lit "apt_packages_count" := JInt 0 ]> info)).

Definition top_processes (procs : list procinfo) : list json :=
  process_entry <$> take 5 (sorted_reverse cpu_key procs).

Definition system_info : sys response :=
  try_except
    (info <- base_info;;
     info <- gnome_probe info;;
     info <- flatpak_probe info;;
     info <- apt_probe info;;
     procs <- ask psutil_process_iter;;
     let info := <[ lit "top_processes" := JArr (top_processes procs) ]> info in
     ret (jsonify (JObj info)))
    (λ e, ret (with_status (jsonify (error_body (exc_str e))) 500)).

(** ** Vocabulary of the statements *)

(** The body is a JSON object with an [error] field holding a string. *)
Definition has_error_field (r : response) : Prop :=
  ∃ m msg, body r = JObj m ∧ m !! lit "error" = Some (JStr msg).


Definition rejected (r : response) : Prop :=
  status r = 400 ∧ has_error_field r.

Definition error_response (code : Z) (msg : str) : response :=
  with_status (jsonify (error_body msg)) code.

Definition weather_400 : response :=
  error_response 400 (lit "lat and lon parameters required").

Definition search_400 : response :=
  error_response 400 (lit "q parameter required").

(** The one request /weather sends for given coordinates, and the one
    /search sends for a given query. *)
Definition weather_request (lat lon : str) : outbound :=
  {| ob_url := weather_url (Some lat) (Some lon);
     ob_params := [];
     ob_timeout := 5 |}.

Definition search_request (q : str) : outbound :=
  {| ob_url := searxng_url;
     ob_params := [ (lit "q", q); (lit "format", lit "json");
                    (lit "categories", lit "general") ];
     ob_timeout := 10 |}.

(** The upstream document holds the six values /weather extracts. *)
Definition weather_fields (data t tu wc ws wu tz : json) : Prop :=
  ∃ m c u,
    data = JObj m
    ∧ m !! lit "current" = Some (JObj c)
    ∧ m !! lit "current_units" = Some (JObj u)
    ∧ c !! lit "temperature_2m" = Some t
    ∧ u !! lit "temperature_2m" = Some tu
    ∧ c !! lit "weathercode" = Some wc
    ∧ c !! lit "windspeed_10m" = Some ws
    ∧ u !! lit "windspeed_10m" = Some wu
    ∧ m !! lit "timezone" = Some tz.

Definition weather_report (t tu wc ws wu tz : json) : json :=
  JObj {[ lit "temperature" := t;
          lit "temperature_unit" := tu;
          lit "weathercode" := wc;
          lit "windspeed" := ws;
          lit "windspeed_unit" := wu;
          lit "timezone" := tz ]}.

(** The stub upstream of the specification's weather example. *)
Definition stub_weather_json : json :=
  JObj {[ lit "current" :=
            JObj {[ lit "temperature_2m" := JFloat 21.5;
                    lit "weathercode" := JInt 3;
                    lit "windspeed_10m" := JFloat 12.0 ]};
          lit "current_units" :=
            JObj {[ lit "temperature_2m" := JStr (lit "°C");
                    lit "windspeed_10m" := JStr (lit "km/h") ]};
          lit "timezone" := JStr (lit "Europe/Berlin") ]}.

(** The query strings of the examples. *)
Definition berlin_args : multidict :=
  [(lit "lat", lit "52.5"); (lit "lon", lit "13.4")].

Definition empty_lat_args : multidict :=
  [(lit "lat", empty_str); (lit "lon", lit "13.4")].

Definition test_args : multidict := [(lit "q", lit "test")].

Definition answering (data : json) : upstream :=
  λ _, Done {| resp_json := Done data |}.

Definition failing (e : pyexc) : upstream := λ _, Raised e.

(** One upstream result as /search emits it: absent fields read as [None],
    an absent [content] as the empty string. *)
Definition reshaped (r : gmap str json) : json :=
  JObj {[ lit "title" := default JNull (r !! lit "title");
          lit "url" := default JNull (r !! lit "url");
          lit "snippet" := default (JStr (empty_str)) (r !! lit "content") ]}.

(** The same, with a null [content] also replaced by the empty string. *)
Definition reshaped_null_as_empty (r : gmap str json) : json :=
  JObj {[ lit "title" := default JNull (r !! lit "title");
          lit "url" := default JNull (r !! lit "url");
          lit "snippet" :=
            match r !! lit "content" with
            | None | Some JNull => JStr (empty_str)
            | Some v => v
            end ]}.

Definition search_results (l : list json) : response :=
  jsonify (JObj {[ lit "results" := JArr l ]}).

(** The search stub of the specification's example: eight results, the odd
    ones without a [content] field. *)
Definition hit (n : N) : gmap str json :=
  let base : gmap str json :=
    {[ lit "title" := JStr (lit "result " ++ [(48 + n)%N]);
       lit "url" := JStr (lit "https://example.org/" ++ [(48 + n)%N]) ]} in
  if N.even n then <[ lit "content" := JStr (lit "about it") ]> base else base.

Definition eight_hits : list (gmap str json) := hit <$> [1; 2; 3; 4; 5; 6; 7; 8]%N.

Definition results_document (l : list json) : json :=
  JObj {[ lit "results" := JArr l ]}.



(** A result whose [content] is null. *)
Definition null_content_hit : gmap str json :=
  {[ lit "title" := JStr (lit "t");
     lit "url" := JStr (lit "u");
     lit "content" := JNull ]}.



Definition connection_refused : pyexc :=
  LibError (lit "ConnectionError") (lit "Connection refused").


(** The instant of a reading with its microseconds dropped. *)
Definition whole_second (d : datetime) : datetime :=
  {| year := year d; month := month d; day := day d;
     hour := hour d; minute := minute d; second := second d;
     microsecond := 0 |}.

(** A text names an instant when it is the instant's ISO form. *)
Definition denotes (text : str) (d : datetime) : Prop := isoformat d = text.

(** The body of /time for given field values. *)
Definition time_info (dt d t tz : str) : response :=
  jsonify (JObj {[ lit "datetime" := JStr dt;
                   lit "date" := JStr d;
                   lit "time" := JStr t;
                   lit "timezone" := JStr tz ]}).

(** A clock that stands at 2024-05-17 12:30:45.250000, in Berlin. *)
Definition quarter_past : datetime :=
  {| year := 2024; month := 5; day := 17;
     hour := 12; minute := 30; second := 45; microsecond := 250000 |}.

Definition berlin_clock : clock :=
  {| reading := λ _, quarter_past; local_tzname := λ _, Done (lit "CEST") |}.

(** A clock that stands at the last microsecond of the range, east of
    Greenwich: the conversion to the local zone steps past year 9999. *)
Definition last_instant : datetime :=
  {| year := 9999; month := 12; day := 31;
     hour := 23; minute := 59; second := 59; microsecond := 999999 |}.

Definition year_out_of_range : pyexc :=
  LibError (lit "ValueError") (lit "year 10000 is out of range").

Definition last_clock : clock :=
  {| reading := λ _, last_instant;
     local_tzname := λ _, Raised year_out_of_range |}.

(** ** Vocabulary for /system *)

(** All reads of the opening dict literal succeed and give [info]. *)
Definition base_reads (env : host) (info : gmap str json) : Prop :=
  run base_info env = (Done info, []).

Definition probe_cmds : list (list str) := [gnome_cmd; flatpak_cmd; dpkg_cmd].

Definition invoked (cmd : list str) : invocation :=
  {| argv := cmd; timeout := None |}.

(** The log of a handler run that got past its three probes. *)
Definition probe_log : list invocation := invoked <$> probe_cmds.

Definition hangs (env : host) (cmd : list str) : Prop :=
  subprocess env cmd = NeverExits.

(** The decoded output of a probe's command, if the command could be
    started, exited with status 0 and wrote valid UTF-8. *)
Definition probe_output (env : host) (cmd : list str) : option str :=
  match check_output_of None (subprocess env cmd) with
  | Done out => decode out
  | _ => None
  end.

(** The probe's command ends, but not with a usable output. *)
Definition probe_fails (env : host) (cmd : list str) : Prop :=
  ¬ hangs env cmd ∧ probe_output env cmd = None.

Definition is_number (v : json) : Prop :=
  match v with JInt _ | JFloat _ => True | _ => False end.

Definition numeric_fields : list str :=
  [ lit "cpu_percent"; lit "cpu_count";
    lit "memory_total_gb"; lit "memory_used_gb"; lit "memory_percent";
    lit "disk_total_gb"; lit "disk_used_gb"; lit "disk_percent" ].

(** What the three probes leave in [info], from their outputs. *)
Definition gnome_field (o : option str) : json :=
  JStr (match o with Some text => strip text | None => lit "unknown" end).

Definition flatpak_entries (o : option str) : list str :=
  match o with
  | Some text => truthy_items (split_nl (strip text))
  | None => []
  end.

Definition apt_field (o : option str) : json :=
  JInt (match o with Some text => count (NL :: lit "ii ") text | None => 0 end).

Definition snapshot (env : host) (info : gmap str json)
    (procs : list procinfo) : gmap str json :=
  let gnome := probe_output env gnome_cmd in
  let flatpak := probe_output env flatpak_cmd in
  let dpkg := probe_output env dpkg_cmd in
  <[ lit "top_processes" := JArr (top_processes procs) ]>
    (<[ lit "apt_packages_count" := apt_field dpkg ]>
       (<[ lit "flatpak_apps" := JArr (JStr <$> take 10 (flatpak_entries flatpak)) ]>
          (<[ lit "flatpak_count" :=
                JInt (Z.of_nat (length (flatpak_entries flatpak))) ]>
             (<[ lit "gnome_version" := gnome_field gnome ]> info)))).

(** The ordering key of the specification: an unavailable reading counts
    as zero. *)
Definition zero_for_null (o : option Q) : Q := default 0%Q o.

Definition by_cpu_descending (p p' : procinfo) : Prop :=
  (zero_for_null (p_cpu_percent p') <= zero_for_null (p_cpu_percent p))%Q.

(** Descending order of a key, and the items of one key value. *)
Definition descending {A} (key : A → Q) (x y : A) : Prop :=
  (key y <= key x)%Q.

Definition same_key {A} (key : A → Q) (k : Q) (x : A) : bool :=
  Qeq_bool (key x) k.

(** An emitted entry carries the name and the reading as they were read:
    a name as a string, a reading as that very number (a zero reading as
    zero, not as the key used for sorting), and an unavailable one as
    null.  It has no other key. *)
Definition carries (p : procinfo) (entry : json) : Prop :=
  ∃ o, entry = JObj o
       ∧ dom o = ({[ lit "name"; lit "cpu_percent" ]} : gset str)
       ∧ (∀ s, p_name p = Some s → o !! lit "name" = Some (JStr s))
       ∧ (p_name p = None → o !! lit "name" = Some JNull)
       ∧ (∀ q, p_cpu_percent p = Some q →
               o !! lit "cpu_percent" = Some (JFloat q))
       ∧ (p_cpu_percent p = None → o !! lit "cpu_percent" = Some JNull).

(** Lines of a text, and the two readings of blank. *)
Definition is_empty (s : str) : bool := negb (nonempty s).

Definition is_whitespace (s : str) : bool := forallb isspace s.

Definition nonblank_lines (blank : str → bool) (text : str) : list str :=
  filter (λ l, negb (blank l)) (split_nl text).

(** A text whose only whitespace is the newline, as a list of application
    IDs is. *)
Definition newline_only (text : str) : Prop :=
  Forall (λ c, isspace c = true → c = NL) text.

Definition file_not_found : pyexc :=
  LibError (lit "FileNotFoundError") (lit "[Errno 2] No such file or directory").

Definition utf8 (s : string) : bytes := String.list_byte_of_string s.

Arguments utf8 s%_string.

(** Hosts for the examples.  [plain_host] has healthy metrics, seven
    processes and none of the three commands installed. *)
Definition seven_procs : list procinfo :=
  [ {| p_name := Some (lit "gnome-shell"); p_cpu_percent := Some 1.5%Q |};
    {| p_name := Some (lit "kworker"); p_cpu_percent := None |};
    {| p_name := None; p_cpu_percent := Some 7.5%Q |};
    {| p_name := Some (lit "idle"); p_cpu_percent := Some 0%Q |};
    {| p_name := Some (lit "python3"); p_cpu_percent := Some 1.5%Q |};
    {| p_name := Some (lit "firefox"); p_cpu_percent := Some 12.0%Q |};
    {| p_name := Some (lit "Xwayland"); p_cpu_percent := Some 3.0%Q |} ].

Definition plain_host : host :=
  {| platform_node := Done (lit "penguin");
     platform_release := Done (lit "6.8.0-45-generic");
     platform_system := Done (lit "Linux");
     platform_version := Done (lit "#45-Ubuntu SMP");
     platform_machine := Done (lit "x86_64");
     psutil_cpu_percent := Done 12.5%Q;
     psutil_cpu_count := Done (Some 8);
     psutil_virtual_memory :=
       λ _, Done {| vm_total := 16 * 1024 ^ 3;
                    vm_used := 3 * 1024 ^ 3 + 5;
                    vm_percent := 20.1%Q |};
     psutil_disk_usage :=
       λ _, Done {| du_total := 500 * 1024 ^ 3;
                    du_used := 1234567890;
                    du_percent := 0.2%Q |};
     subprocess := λ _, NotStarted file_not_found;
     psutil_process_iter := Done seven_procs |}.

Definition with_subprocess (env : host) (f : list str → behaviour) : host :=
  {| platform_node := platform_node env;
     platform_release := platform_release env;
     platform_system := platform_system env;
     platform_version := platform_version env;
     platform_machine := platform_machine env;
     psutil_cpu_percent := psutil_cpu_percent env;
     psutil_cpu_count := psutil_cpu_count env;
     psutil_virtual_memory := psutil_virtual_memory env;
     psutil_disk_usage := psutil_disk_usage env;
     subprocess := f;
     psutil_process_iter := psutil_process_iter env |}.

(** flatpak installed and listing the given text; nothing else. *)
Definition flatpak_host (listing : bytes) : host :=
  with_subprocess plain_host
    (λ cmd, if decide (cmd = flatpak_cmd) then Exits 1 0 listing
            else NotStarted file_not_found).

(** gnome-shell starts and never exits. *)
Definition hung_host : host :=
  with_subprocess plain_host
    (λ cmd, if decide (cmd = gnome_cmd) then NeverExits
            else NotStarted file_not_found).

(** None of the commands installed, and the disk cannot be read. *)
Definition broken_host : host :=
  {| platform_node := platform_node plain_host;
     platform_release := platform_release plain_host;
     platform_system := platform_system plain_host;
     platform_version := platform_version plain_host;
     platform_machine := platform_machine plain_host;
     psutil_cpu_percent := psutil_cpu_percent plain_host;
     psutil_cpu_count := psutil_cpu_count plain_host;
     psutil_virtual_memory := psutil_virtual_memory plain_host;
     psutil_disk_usage :=
       λ _, Raised (LibError (lit "PermissionError")
                             (lit "[Errno 13] Permission denied: '/'"));
     subprocess := subprocess plain_host;
     psutil_process_iter := psutil_process_iter plain_host |}.

(** A field of the JSON object a run answered with. *)
Definition field {L} (k : string) (r : outcome response * list L)
  : option json :=
  match fst r with
  | Done {| body := JObj m |} => m !! lit k
  | _ => None
  end.

Arguments field {L} k%_string r.

Definition newline : bytes := [Byte.x0a].

(** Two listings with a line of one space: inside, and at the end. *)
Definition listing_blank_inside : bytes :=
  utf8 "a" ++ newline ++ utf8 " " ++ newline ++ utf8 "b" ++ newline.

Definition listing_blank_last : bytes :=
  utf8 "a" ++ newline ++ utf8 " " ++ newline.

Definition listing_two_apps : bytes :=
  utf8 "org.gnome.Calculator" ++ newline ++ utf8 "org.mozilla.firefox"
  ++ newline.

(** The CPU count cannot be determined: [psutil.cpu_count()] is [None]. *)
Definition uncounted_host : host :=
  {| platform_node := platform_node plain_host;
     platform_release := platform_release plain_host;
     platform_system := platform_system plain_host;
     platform_version := platform_version plain_host;
     platform_machine := platform_machine plain_host;
     psutil_cpu_percent := psutil_cpu_percent plain_host;
     psutil_cpu_count := Done None;
     psutil_virtual_memory := psutil_virtual_memory plain_host;
     psutil_disk_usage := psutil_disk_usage plain_host;
     subprocess := subprocess plain_host;
     psutil_process_iter := psutil_process_iter plain_host |}.

(** The process table cannot be read. *)
Definition unlistable_host : host :=
  {| platform_node := platform_node plain_host;
     platform_release := platform_release plain_host;
     platform_system := platform_system plain_host;
     platform_version := platform_version plain_host;
     platform_machine := platform_machine plain_host;
     psutil_cpu_percent := psutil_cpu_percent plain_host;
     psutil_cpu_count := psutil_cpu_count plain_host;
     psutil_virtual_memory := psutil_virtual_memory plain_host;
     psutil_disk_usage := psutil_disk_usage plain_host;
     subprocess := subprocess plain_host;
     psutil_process_iter :=
       Raised (LibError (lit "OSError") (lit "[Errno 24] Too many open files")) |}.

(** The dict that the opening reads of [plain_host] give. *)
Definition plain_info : gmap str json :=
  Eval vm_compute in
    match run base_info plain_host with
    | (Done info, _) => info
    | _ => ∅
    end.

(** ** Vocabulary for the further properties *)

(** The upstream always comes back: the call returns or raises, and so does
    the parsing of what it returned. *)
Definition responsive (up : upstream) : Prop :=
  ∀ ob, up ob ≠ Blocked
        ∧ ∀ resp, up ob = Done resp → resp_json resp ≠ Blocked.

(** The request /weather sends for the raw values of its two parameters. *)
Definition weather_request_of (args : multidict) : outbound :=
  {| ob_url := weather_url (args_get args (lit "lat")) (args_get args (lit "lon"));
     ob_params := [];
     ob_timeout := 5 |}.

Definition search_request_of (args : multidict) : outbound :=
  {| ob_url := searxng_url;
     ob_params := [ (lit "q", format_arg (args_get args (lit "q")));
                    (lit "format", lit "json");
                    (lit "categories", lit "general") ];
     ob_timeout := 10 |}.

(** A result as /search emits it: an object with the three keys and no
    other. *)
Definition result_shape (entry : json) : Prop :=
  ∃ o : gmap str json,
    entry = JObj o
    ∧ dom o = {[ lit "title"; lit "url"; lit "snippet" ]}.

(** The seventeen keys of a /system snapshot. *)
Definition snapshot_keys : gset str :=
  list_to_set
    [ lit "hostname"; lit "kernel"; lit "os"; lit "architecture";
      lit "cpu_percent"; lit "cpu_count";
      lit "memory_total_gb"; lit "memory_used_gb"; lit "memory_percent";
      lit "disk_total_gb"; lit "disk_used_gb"; lit "disk_percent";
      lit "gnome_version"; lit "flatpak_count"; lit "flatpak_apps";
      lit "apt_packages_count"; lit "top_processes" ].

(** A text with no whitespace at either end. *)
Definition trimmed (s : str) : Prop :=
  (∀ c, head s = Some c → isspace c = false)
  ∧ (∀ c, last s = Some c → isspace c = false).

Definition all_space (s : str) : Prop := Forall (λ c, isspace c = true) s.

(** A line of [dpkg -l] for an installed package. *)
Definition installed_line (l : str) : bool := starts_with (lit "ii ") l.

(** The lines of a text after its first. *)
Definition later_lines (text : str) : list str := tail (split_nl text).

(** dpkg installed and printing the given text; nothing else. *)
Definition dpkg_host (listing : bytes) : host :=
  with_subprocess plain_host
    (λ cmd, if decide (cmd = dpkg_cmd) then Exits 1 0 listing
            else NotStarted file_not_found).

Definition gnome_host (banner : bytes) : host :=
  with_subprocess plain_host
    (λ cmd, if decide (cmd = gnome_cmd) then Exits 1 0 banner
            else NotStarted file_not_found).

Definition listing_dpkg : bytes :=
  utf8 "ii  first-line" ++ newline ++ utf8 "ii  adduser" ++ newline
  ++ utf8 "rc  old" ++ newline ++ utf8 "ii  zlib1g" ++ newline.

Definition banner_gnome : bytes := utf8 "GNOME Shell 46.0" ++ newline.

(** A reading as a running clock gives it: a four-digit year and every
    other field within its range. *)
Definition well_formed (d : datetime) : Prop :=
  (1000 ≤ year d ≤ 9999 ∧ 1 ≤ month d ≤ 12 ∧ 1 ≤ day d ≤ 31
   ∧ hour d ≤ 23 ∧ minute d ≤ 59 ∧ second d ≤ 59
   ∧ microsecond d ≤ 999999)%N.

Definition health_info (timestamp : str) : response :=
  jsonify (JObj {[ lit "status" := JStr (lit "ok");
                   lit "timestamp" := JStr timestamp ]}).

(** * The model on small inputs *)

Example decode_degree : decode (utf8 "°C") = Some [176%N; 67%N].
Proof. reflexivity. Qed.

Example decode_invalid_start : decode [Byte.xff] = None.
Proof. reflexivity. Qed.

Example decode_overlong : decode [Byte.xc0; Byte.x80] = None.
Proof. reflexivity. Qed.

Example decode_surrogate : decode [Byte.xed; Byte.xa0; Byte.x80] = None.
Proof. reflexivity. Qed.

Example strip_both_ends :
  strip ([NL] ++ lit "  GNOME Shell 46.0 " ++ [NL]) = lit "GNOME Shell 46.0".
Proof. reflexivity. Qed.

Example split_keeps_empty_lines :
  split_nl (lit "a" ++ [NL; NL] ++ lit "b") = [lit "a"; []; lit "b"].
Proof. reflexivity. Qed.

Example split_of_empty : split_nl [] = [[]].
Proof. reflexivity. Qed.

Example count_installed :
  count (NL :: lit "ii ")
        (lit "+++-===" ++ [NL] ++ lit "ii  adduser" ++ [NL] ++ lit "rc  old"
         ++ [NL] ++ lit "ii  zlib1g")
  = 2.
Proof. reflexivity. Qed.

Example count_skips_a_match : count (lit "aa") (lit "aaaaa") = 2.
Proof. reflexivity. Qed.

Example args_get_first :
  args_get [(lit "q", lit "one"); (lit "q", lit "two")] (lit "q")
  = Some (lit "one").
Proof. reflexivity. Qed.

Example getitem_of_null :
  py_getitem JNull (lit "current")
  = Raised (TypeError (lit "'NoneType' object is not subscriptable")).
Proof. reflexivity. Qed.

Example key_error_text : exc_str (KeyError (lit "current")) = lit "'current'".
Proof. reflexivity. Qed.

Example slice_of_text :
  py_slice_items (JStr (lit "abcdefg")) 5
  = Done [JStr (lit "a"); JStr (lit "b"); JStr (lit "c"); JStr (lit "d");
          JStr (lit "e")].
Proof. reflexivity. Qed.

Example isoformat_with_fraction :
  isoformat quarter_past = lit "2024-05-17T12:30:45.250000".
Proof. reflexivity. Qed.

Example isoformat_whole_second :
  isoformat (whole_second quarter_past) = lit "2024-05-17T12:30:45".
Proof. reflexivity. Qed.

Example pad_small_microseconds : pad0 6 250 = lit "000250".
Proof. reflexivity. Qed.

Example round2_half_to_even :
  (round2 0.125 = 0.12 ∧ round2 0.135 = 0.14 ∧ round2 2.5 = 2.50)%Q.
Proof. repeat split; reflexivity. Qed.

Example gb_of_sixteen : gb (16 * 1024 ^ 3) = Done 16%Q.
Proof. reflexivity. Qed.

(** The quotient is rounded to a [float] before the decimal rounding sees
    it: 9007199388958721 / 2^30 lies just above 8388608.125, the nearest
    [float] is 8388608.125 itself, and its half goes to the even hundredth. *)
Example gb_rounds_the_float :
  gb 9007199388958721 = Done (4503599691795005 # 536870912)%Q
  ∧ binary64 8388608.12 = Some (4503599691795005 # 536870912)%Q
  ∧ round2 (9007199388958721 # 1073741824) = 8388608.13%Q.
Proof. repeat split; vm_compute; reflexivity. Qed.

Example gb_of_a_huge_count :
  gb (2 ^ 1060)
  = Raised (OverflowError
              (lit "integer division result too large for a float")).
Proof. vm_compute. reflexivity. Qed.

Example binary64_of_a_tenth :
  binary64 0.1 = Some (3602879701896397 # 36028797018963968)%Q.
Proof. vm_compute. reflexivity. Qed.

Example a_bound_would_end_the_wait :
  check_output_of (Some 5%N) NeverExits = Raised TimeoutExpired
  ∧ check_output_of None NeverExits = Blocked.
Proof. split; reflexivity. Qed.

(** The seven processes ranked: the one without a name is second, the ones
    at 1.5 keep their order, the one without a reading counts as zero and
    falls out of the five. *)
Example top_of_seven :
  p_name <$> take 5 (sorted_reverse cpu_key seven_procs)
  = [ Some (lit "firefox"); None; Some (lit "Xwayland");
      Some (lit "gnome-shell"); Some (lit "python3") ]
  ∧ sorted_reverse cpu_key seven_procs !! 5%nat
    = Some {| p_name := Some (lit "kworker"); p_cpu_percent := None |}.
Proof. split; reflexivity. Qed.

Example entry_keeps_null :
  process_entry {| p_name := Some (lit "kworker"); p_cpu_percent := None |}
  = JObj {[ lit "name" := JStr (lit "kworker"); lit "cpu_percent" := JNull ]}.
Proof. reflexivity. Qed.

(** * Validation of the query parameters *)

Lemma error_response_has_field code msg :
  has_error_field (error_response code msg).
Proof.
  exists {[ lit "error" := JStr msg ]}, msg.
  split; [reflexivity | apply lookup_singleton_eq].
Qed.


Lemma error_400_rejected msg : rejected (error_response 400 msg).
Proof. split; [reflexivity | apply error_response_has_field]. Qed.

(** The guard of /weather: a falsy [lat] or [lon] ends the handler before
    anything is sent. *)
Lemma get_weather_falsy args up :
  truthy (args_get args (lit "lat")) = false
  ∨ truthy (args_get args (lit "lon")) = false →
  run (get_weather args) up = (Done weather_400, []).
Proof.
  intros H. unfold get_weather.
  destruct H as [-> | ->]; [reflexivity |].
  rewrite orb_true_r. reflexivity.
Qed.

Lemma web_search_falsy args up :
  truthy (args_get args (lit "q")) = false →
  run (web_search args) up = (Done search_400, []).
Proof. intros H. unfold web_search. rewrite H. reflexivity. Qed.

(** C1. A request to /weather without [lat] or without [lon], and a request
    to /search without [q], is answered with status 400 and a JSON body that
    has an [error] field; the log of outbound calls stays empty. *)
Theorem missing_parameter_rejected :
  (∀ args up,
      args_get args (lit "lat") = None ∨ args_get args (lit "lon") = None →
      ∃ r, run (get_weather args) up = (Done r, []) ∧ rejected r)
  ∧ (∀ args up,
      args_get args (lit "q") = None →
      ∃ r, run (web_search args) up = (Done r, []) ∧ rejected r).
Proof.
  split; intros args up H.
  - exists weather_400. split; [| apply error_400_rejected].
    apply get_weather_falsy. destruct H as [-> | ->]; auto.
  - exists search_400. split; [| apply error_400_rejected].
    apply web_search_falsy. rewrite H. reflexivity.
Qed.

Lemma missing_parameter_rejected_witness :
  (∃ r, run (get_weather [(lit "lon", lit "13.4")])
            (answering stub_weather_json) = (Done r, [])
        ∧ rejected r)
  ∧ (∃ r, run (web_search [(lit "lang", lit "de")]) (answering JNull)
          = (Done r, [])
          ∧ rejected r).
Proof.
  split.
  - apply (proj1 missing_parameter_rejected). left. reflexivity.
  - apply (proj2 missing_parameter_rejected). reflexivity.
Defined.

(** C10. A [lat] or [lon] that is present but empty, and a [q] that is
    present but empty, is handled exactly like a missing one: the run of the
    handler equals the run on a request without the parameter, which is the
    400 answer with an [error] field and no outbound call. *)
Theorem empty_parameter_as_missing :
  (∀ args args0 up,
      args_get args (lit "lat") = Some [] ∨ args_get args (lit "lon") = Some [] →
      args_get args0 (lit "lat") = None ∨ args_get args0 (lit "lon") = None →
      run (get_weather args) up = run (get_weather args0) up
      ∧ ∃ r, run (get_weather args) up = (Done r, []) ∧ rejected r)
  ∧ (∀ args args0 up,
      args_get args (lit "q") = Some [] →
      args_get args0 (lit "q") = None →
      run (web_search args) up = run (web_search args0) up
      ∧ ∃ r, run (web_search args) up = (Done r, []) ∧ rejected r).
Proof.
  split.
  - intros args args0 up H H0.
    assert (E : run (get_weather args) up = (Done weather_400, [])).
    { apply get_weather_falsy. destruct H as [-> | ->]; auto. }
    assert (E0 : run (get_weather args0) up = (Done weather_400, [])).
    { apply get_weather_falsy. destruct H0 as [-> | ->]; auto. }
    split; [congruence |].
    exists weather_400. split; [exact E | apply error_400_rejected].
  - intros args args0 up H H0.
    assert (E : run (web_search args) up = (Done search_400, [])).
    { apply web_search_falsy. rewrite H. reflexivity. }
    assert (E0 : run (web_search args0) up = (Done search_400, [])).
    { apply web_search_falsy. rewrite H0. reflexivity. }
    split; [congruence |].
    exists search_400. split; [exact E | apply error_400_rejected].
Qed.

Lemma empty_parameter_as_missing_witness :
  (run (get_weather empty_lat_args)
       (answering stub_weather_json)
   = run (get_weather [(lit "lon", lit "13.4")]) (answering stub_weather_json)
   ∧ ∃ r, run (get_weather empty_lat_args)
              (answering stub_weather_json) = (Done r, [])
          ∧ rejected r)
  ∧ (run (web_search [(lit "q", empty_str)]) (answering JNull)
     = run (web_search []) (answering JNull)
     ∧ ∃ r, run (web_search [(lit "q", empty_str)]) (answering JNull)
            = (Done r, [])
            ∧ rejected r).
Proof.
  split.
  - apply (proj1 empty_parameter_as_missing); left; reflexivity.
  - apply (proj2 empty_parameter_as_missing); reflexivity.
Defined.

(** * /weather and /search past the guard *)

Lemma truthy_some s : s ≠ [] → truthy (Some s) = true.
Proof. destruct s; [congruence | reflexivity]. Qed.

(** C2, as the code has it.  For a /weather request whose [lat] and [lon]
    are present and not empty, and an upstream document that holds
    current.temperature_2m, current_units.temperature_2m,
    current.weathercode, current.windspeed_10m,
    current_units.windspeed_10m and timezone, the handler sends its one
    request and answers 200 with exactly the object of those six values. *)
Theorem weather_success_reshapes args lat lon up resp data t tu wc ws wu tz :
  args_get args (lit "lat") = Some lat →
  args_get args (lit "lon") = Some lon →
  lat ≠ [] → lon ≠ [] →
  up (weather_request lat lon) = Done resp →
  resp_json resp = Done data →
  weather_fields data t tu wc ws wu tz →
  run (get_weather args) up
  = (Done (jsonify (weather_report t tu wc ws wu tz)),
     [weather_request lat lon]).
Proof.
  intros Hlat Hlon Nlat Nlon Hup Hjson (m & c & u & -> & Hc & Hu & F).
  destruct F as (Ft & Ftu & Fwc & Fws & Fwu & Ftz).
  unfold get_weather. rewrite Hlat, Hlon, !truthy_some by assumption.
  cbn [negb orb].
  unfold run, try_except, bind, requests_get, call, getitem, lift, ret.
  fold (weather_request lat lon). rewrite Hup, Hjson.
  cbn [py_getitem]. rewrite Hc, Hu. cbn [py_getitem].
  rewrite Ft, Ftu, Fwc, Fws, Fwu, Ftz. reflexivity.
Qed.

(** The specification's example: the stub upstream with 21.5 °C, code 3,
    12.0 km/h and Europe/Berlin, asked for lat=52.5 and lon=13.4. *)
Lemma weather_success_reshapes_witness :
  run (get_weather berlin_args) (answering stub_weather_json)
  = (Done (jsonify (weather_report
                      (JFloat 21.5) (JStr (lit "°C")) (JInt 3)
                      (JFloat 12.0) (JStr (lit "km/h"))
                      (JStr (lit "Europe/Berlin")))),
     [weather_request (lit "52.5") (lit "13.4")]).
Proof.
  apply (weather_success_reshapes _ (lit "52.5") (lit "13.4") _
           {| resp_json := Done stub_weather_json |} stub_weather_json).
  - reflexivity.
  - reflexivity.
  - vm_compute. discriminate.
  - vm_compute. discriminate.
  - reflexivity.
  - reflexivity.
  - eexists _, _, _. split; [reflexivity |].
    repeat split; vm_compute; reflexivity.
Defined.

(** C2 as stated fails for a parameter that is present but empty: the same
    stub upstream is never asked and the answer is the 400 of the guard,
    not the reshaped object. *)
Lemma weather_present_but_empty :
  args_get empty_lat_args (lit "lat") = Some empty_str
  ∧ args_get empty_lat_args (lit "lon") = Some (lit "13.4")
  ∧ weather_fields stub_weather_json
      (JFloat 21.5) (JStr (lit "°C")) (JInt 3)
      (JFloat 12.0) (JStr (lit "km/h")) (JStr (lit "Europe/Berlin"))
  ∧ run (get_weather empty_lat_args) (answering stub_weather_json)
    = (Done weather_400, [])
  ∧ fst (run (get_weather empty_lat_args) (answering stub_weather_json))
    ≠ Done (jsonify (weather_report
                       (JFloat 21.5) (JStr (lit "°C")) (JInt 3)
                       (JFloat 12.0) (JStr (lit "km/h"))
                       (JStr (lit "Europe/Berlin")))).
Proof.
  split; [reflexivity |]. split; [reflexivity |].
  split.
  { eexists _, _, _. split; [reflexivity |].
    repeat split; vm_compute; reflexivity. }
  split; [reflexivity |].
  intros H. apply (f_equal (λ o, match o with
                                 | Done r => status r
                                 | _ => 0
                                 end)) in H.
  vm_compute in H. discriminate.
Qed.

Lemma map_eff_search_entry (rs : list (gmap str json)) (up : upstream) log :
  map_eff search_entry (JObj <$> rs) up log = (Done (reshaped <$> rs), log).
Proof.
  induction rs as [| r rs IH]; [reflexivity |].
  cbn [fmap list_fmap map_eff]. unfold bind at 1.
  change (search_entry (JObj r) up log) with (Done (reshaped r), log).
  cbn beta iota. unfold bind at 1.
  change (list_fmap _ _ JObj rs) with (JObj <$> rs).
  rewrite IH. reflexivity.
Qed.

Lemma take_min_length {A} n (l : list A) : take (n `min` length l) l = take n l.
Proof.
  destruct (Nat.le_ge_cases n (length l)) as [H | H].
  - rewrite Nat.min_l by assumption. reflexivity.
  - rewrite Nat.min_r by assumption.
    rewrite firstn_all, take_ge by assumption. reflexivity.
Qed.

(** C3, as the code has it.  For a /search request whose [q] is present and
    not empty, and an upstream document whose [results] field is a list of
    objects, the handler answers 200 with the first min(5, length) entries
    in their order, each as title, url and snippet: title and url are the
    entry's fields (null when absent), snippet is the entry's [content]
    field whatever it holds, null included, and the empty string only when
    the field is absent. *)
Theorem search_results_reshaped (args : multidict) (q : str) (up : upstream)
    (resp : http_response) (m : gmap str json) (rs : list (gmap str json)) :
  args_get args (lit "q") = Some q →
  q ≠ [] →
  up (search_request q) = Done resp →
  resp_json resp = Done (JObj m) →
  m !! lit "results" = Some (JArr (JObj <$> rs)) →
  run (web_search args) up
  = (Done (search_results (reshaped <$> take (5 `min` length rs) rs)),
     [search_request q])
  ∧ length (reshaped <$> take (5 `min` length rs) rs) = (5 `min` length rs)%nat.
Proof.
  intros Hq Nq Hup Hjson Hres. split.
  - unfold web_search. rewrite Hq, truthy_some by assumption. cbn [negb].
    unfold run, try_except. unfold bind at 1.
    unfold requests_get, call. cbn [format_arg].
    fold (search_request q). rewrite Hup. cbn beta iota.
    unfold bind at 1, lift at 1. rewrite Hjson. cbn beta iota.
    unfold bind at 1, lift at 1. cbn [py_get]. rewrite Hres. cbn [default from_option id].
    cbn beta iota. unfold bind at 1, lift at 1. cbn [py_slice_items].
    rewrite <- fmap_take. cbn beta iota. unfold bind at 1.
    rewrite map_eff_search_entry, take_min_length. reflexivity.
  - rewrite length_fmap, length_take. lia.
Qed.


(** The specification's example: eight upstream results give the first five,
    in order, and the odd ones get the empty snippet. *)
Lemma search_results_reshaped_witness :
  (run (web_search test_args)
       (answering (results_document (JObj <$> eight_hits)))
   = (Done (search_results
              (reshaped <$> take (5 `min` length eight_hits) eight_hits)),
      [search_request (lit "test")])
   ∧ length (reshaped <$> take (5 `min` length eight_hits) eight_hits)
     = (5 `min` length eight_hits)%nat)
  ∧ (5 `min` length eight_hits)%nat = 5%nat
  ∧ (reshaped <$> eight_hits) !! 0%nat
    = Some (JObj {[ lit "title" := JStr (lit "result 1");
                    lit "url" := JStr (lit "https://example.org/1");
                    lit "snippet" := JStr (empty_str) ]}).
Proof.
  split; [| split; vm_compute; reflexivity].
  apply (search_results_reshaped _ (lit "test") _
           {| resp_json := Done (results_document (JObj <$> eight_hits)) |}
           {[ lit "results" := JArr (JObj <$> eight_hits) ]}).
  - reflexivity.
  - vm_compute. discriminate.
  - reflexivity.
  - reflexivity.
  - apply lookup_singleton_eq.
Defined.

(** C3 as stated fails on a null [content]: the snippet of the answer is
    null, not the empty string.  It also fails for a [q] that is present but
    empty (400, nothing asked) and for a list of results with an entry that
    is not an object (500). *)
Lemma search_null_content_kept :
  (run (web_search test_args)
       (answering (results_document [JObj null_content_hit]))
   = (Done (search_results
              [JObj {[ lit "title" := JStr (lit "t");
                       lit "url" := JStr (lit "u");
                       lit "snippet" := JNull ]}]),
      [search_request (lit "test")])
   ∧ fst (run (web_search test_args)
              (answering (results_document [JObj null_content_hit])))
     ≠ Done (search_results
               (reshaped_null_as_empty <$> take 5 [null_content_hit])))
  ∧ (args_get [(lit "q", empty_str)] (lit "q") = Some empty_str
     ∧ run (web_search [(lit "q", empty_str)])
           (answering (results_document (JObj <$> eight_hits)))
       = (Done search_400, []))
  ∧ run (web_search test_args)
        (answering (results_document [JStr (lit "hit")]))
    = (Done (error_response 500 (lit "'str' object has no attribute 'get'")),
       [search_request (lit "test")]).
Proof.
  split; [split | split; [split |]]; try (vm_compute; reflexivity).
  intros H.
  apply (f_equal (λ o, match o with
                       | Done {| body := JObj m |} =>
                         match m !! lit "results" with
                         | Some (JArr [JObj r]) => r !! lit "snippet"
                         | _ => None
                         end
                       | _ => None
                       end)) in H.
  vm_compute in H. discriminate.
Qed.

(** * Upstream failures *)

Lemma get_weather_past_guard args lat lon :
  args_get args (lit "lat") = Some lat →
  args_get args (lit "lon") = Some lon →
  lat ≠ [] → lon ≠ [] →
  negb (truthy (args_get args (lit "lat")))
  || negb (truthy (args_get args (lit "lon"))) = false.
Proof. intros -> -> H1 H2. rewrite !truthy_some by assumption. reflexivity. Qed.

Lemma not_subscriptable_nonempty v : exc_str (not_subscriptable v) ≠ [].
Proof. destruct v; vm_compute; discriminate. Qed.

Lemma no_attribute_get_nonempty v : exc_str (no_attribute_get v) ≠ [].
Proof. destruct v; vm_compute; discriminate. Qed.

Lemma py_getitem_raises v k e :
  py_getitem v (lit k) = Raised e → exc_str e ≠ [].
Proof.
  destruct v; cbn [py_getitem]; intros H; try (injection H as <-).
  1-4: apply not_subscriptable_nonempty.
  - vm_compute; discriminate.
  - vm_compute; discriminate.
  - destruct (m !! lit k); [discriminate |]. injection H as <-.
    unfold exc_str, repr_key. change (lit "'") with [39%N]. discriminate.
Qed.

Lemma py_getitem_done v k x :
  py_getitem v k = Done x → ∃ m, v = JObj m ∧ m !! k = Some x.
Proof.
  destruct v; cbn [py_getitem]; try discriminate.
  destruct (m !! k) eqn:E; [| discriminate].
  intros [= <-]. eauto.
Qed.

Lemma py_getitem_returns v k : py_getitem v k ≠ Blocked.
Proof.
  destruct v; cbn [py_getitem]; try discriminate.
  destruct (m !! k); discriminate.
Qed.

(** One lookup of a chain: it returns and the chain goes on, or it raises
    and the handler's [except] reports it. *)
Ltac lookup_step :=
  match goal with
  | |- context [match py_getitem ?v ?k with _ => _ end] =>
    let E := fresh "E" in
    destruct (py_getitem v k) as [? | ? |] eqn:E;
    [ apply py_getitem_done in E as (? & ? & E); simplify_eq
    | right; eexists; split;
      [reflexivity | eapply py_getitem_raises; eassumption]
    | exfalso; eapply py_getitem_returns; eassumption ]
  end.

(** Past the guard and with a parsed document, /weather either finds its
    six values or answers 500 with the description of the failed lookup,
    which is never empty. *)
Lemma weather_missing_field args lat lon up resp data :
  args_get args (lit "lat") = Some lat →
  args_get args (lit "lon") = Some lon →
  lat ≠ [] → lon ≠ [] →
  up (weather_request lat lon) = Done resp →
  resp_json resp = Done data →
  (∃ t tu wc ws wu tz, weather_fields data t tu wc ws wu tz)
  ∨ (∃ e, run (get_weather args) up
          = (Done (error_response 500 (exc_str e)), [weather_request lat lon])
          ∧ exc_str e ≠ []).
Proof.
  intros Hlat Hlon Nlat Nlon Hup Hjson.
  unfold get_weather.
  rewrite (get_weather_past_guard args lat lon) by assumption.
  rewrite Hlat, Hlon.
  unfold run, try_except, bind, requests_get, call, getitem, lift, ret.
  fold (weather_request lat lon). rewrite Hup, Hjson.
  do 8 (lookup_step; []).
  left. do 6 eexists. unfold weather_fields. eauto 15.
Qed.

Lemma map_eff_cons {E L A B} (f : A → eff E L B) x l env log :
  map_eff f (x :: l) env log
  = match f x env log with
    | (Done y, log') =>
      match map_eff f l env log' with
      | (Done ys, log'') => (Done (y :: ys), log'')
      | (Raised e, log'') => (Raised e, log'')
      | (Blocked, log'') => (Blocked, log'')
      end
    | (Raised e, log') => (Raised e, log')
    | (Blocked, log') => (Blocked, log')
    end.
Proof.
  cbn [map_eff]. unfold bind at 1.
  destruct (f x env log) as [[y | e |] log']; reflexivity.
Qed.

Lemma search_entry_object (m : gmap str json) (up : upstream) log :
  search_entry (JObj m) up log = (Done (reshaped m), log).
Proof. reflexivity. Qed.

Lemma search_entry_other v (up : upstream) log :
  (∀ m, v ≠ JObj m) →
  search_entry v up log = (Raised (no_attribute_get v), log).
Proof. destruct v; intros H; try reflexivity. destruct (H m eq_refl). Qed.

Lemma map_eff_search_entry_outcome (l : list json) (up : upstream) log :
  (∃ rs, map_eff search_entry l up log = (Done rs, log))
  ∨ (∃ e, map_eff search_entry l up log = (Raised e, log) ∧ exc_str e ≠ []).
Proof.
  induction l as [| v l IH]; [left; eexists; reflexivity |].
  rewrite map_eff_cons.
  destruct v;
    try (rewrite search_entry_other by discriminate;
         right; eexists; split;
         [reflexivity | apply no_attribute_get_nonempty]).
  rewrite search_entry_object.
  destruct IH as [(rs & ->) | (e & -> & He)].
  - left. eexists. reflexivity.
  - right. exists e. split; [reflexivity | exact He].
Qed.

Lemma py_slice_items_outcome v n :
  (∃ l, py_slice_items v n = Done l)
  ∨ (∃ e, py_slice_items v n = Raised e ∧ exc_str e ≠ []).
Proof.
  destruct v; cbn [py_slice_items];
    first [ left; eexists; reflexivity
          | right; eexists; split;
            [ reflexivity
            | first [ apply not_subscriptable_nonempty
                    | vm_compute; discriminate ] ] ].
Qed.

(** Past the guard and with a parsed document, /search either answers 200
    with a list of results or answers 500 with the description of what
    failed, which is never empty. *)
Lemma search_bad_document args q up resp data :
  args_get args (lit "q") = Some q →
  q ≠ [] →
  up (search_request q) = Done resp →
  resp_json resp = Done data →
  (∃ l, run (web_search args) up = (Done (search_results l), [search_request q]))
  ∨ (∃ e, run (web_search args) up
          = (Done (error_response 500 (exc_str e)), [search_request q])
          ∧ exc_str e ≠ []).
Proof.
  intros Hq Nq Hup Hjson.
  remember (run (web_search args) up) as R eqn:ER.
  unfold web_search in ER. rewrite Hq, truthy_some in ER by assumption.
  cbn [negb] in ER.
  unfold run, try_except in ER. unfold bind at 1 in ER.
  unfold requests_get, call in ER. cbn [format_arg] in ER.
  fold (search_request q) in ER. rewrite Hup in ER. cbn beta iota in ER.
  unfold bind at 1, lift at 1 in ER. rewrite Hjson in ER. cbn beta iota in ER.
  unfold bind at 1, lift at 1 in ER.
  destruct data as [| | | | | | m];
    try (right; eexists; split;
         [exact ER | apply no_attribute_get_nonempty]).
  cbn [py_get] in ER. cbn beta iota in ER. unfold bind at 1, lift at 1 in ER.
  destruct (py_slice_items_outcome (default (JArr []) (m !! lit "results")) 5)
    as [(l & El) | (e & El & He)]; rewrite El in ER.
  2: { right. exists e. split; [exact ER | exact He]. }
  cbn beta iota in ER. unfold bind at 1 in ER.
  destruct (map_eff_search_entry_outcome l up ([] ++ [search_request q]))
    as [(rs & Ers) | (e & Ers & He)]; rewrite Ers in ER.
  - left. exists rs. exact ER.
  - right. exists e. split; [exact ER | exact He].
Qed.



Lemma weather_call_raises args lat lon up e :
  args_get args (lit "lat") = Some lat →
  args_get args (lit "lon") = Some lon →
  lat ≠ [] → lon ≠ [] →
  up (weather_request lat lon) = Raised e →
  run (get_weather args) up
  = (Done (error_response 500 (exc_str e)), [weather_request lat lon]).
Proof.
  intros Hlat Hlon Nlat Nlon Hup. unfold get_weather.
  rewrite (get_weather_past_guard args lat lon) by assumption.
  rewrite Hlat, Hlon.
  unfold run, try_except, bind, requests_get, call.
  fold (weather_request lat lon). rewrite Hup. reflexivity.
Qed.

Lemma weather_body_raises args lat lon up resp e :
  args_get args (lit "lat") = Some lat →
  args_get args (lit "lon") = Some lon →
  lat ≠ [] → lon ≠ [] →
  up (weather_request lat lon) = Done resp →
  resp_json resp = Raised e →
  run (get_weather args) up
  = (Done (error_response 500 (exc_str e)), [weather_request lat lon]).
Proof.
  intros Hlat Hlon Nlat Nlon Hup Hjson. unfold get_weather.
  rewrite (get_weather_past_guard args lat lon) by assumption.
  rewrite Hlat, Hlon.
  unfold run, try_except, bind, requests_get, call, lift.
  fold (weather_request lat lon). rewrite Hup, Hjson. reflexivity.
Qed.

Lemma search_call_raises args q up e :
  args_get args (lit "q") = Some q →
  q ≠ [] →
  up (search_request q) = Raised e →
  run (web_search args) up
  = (Done (error_response 500 (exc_str e)), [search_request q]).
Proof.
  intros Hq Nq Hup. unfold web_search.
  rewrite Hq, truthy_some by assumption. cbn [negb format_arg].
  unfold run, try_except, bind, requests_get, call.
  fold (search_request q). rewrite Hup. reflexivity.
Qed.

Lemma search_body_raises args q up resp e :
  args_get args (lit "q") = Some q →
  q ≠ [] →
  up (search_request q) = Done resp →
  resp_json resp = Raised e →
  run (web_search args) up
  = (Done (error_response 500 (exc_str e)), [search_request q]).
Proof.
  intros Hq Nq Hup Hjson. unfold web_search.
  rewrite Hq, truthy_some by assumption. cbn [negb format_arg].
  unfold run, try_except, bind, requests_get, call, lift.
  fold (search_request q). rewrite Hup, Hjson. reflexivity.
Qed.




(** * /time *)

Lemma four_digit_years_checked :
  forallb (λ n, Nat.eqb (length (dec (N.of_nat n))) 4) (seq (N.to_nat 1000) (N.to_nat 9000))
  = true.
Proof. vm_compute. reflexivity. Qed.

Lemma dec_four_digits (y : N) :
  (1000 ≤ y ≤ 9999)%N → pad0 4 y = dec y.
Proof.
  intros Hy. unfold pad0.
  assert (L : length (dec y) = 4%nat).
  { pose proof four_digit_years_checked as H.
    rewrite forallb_forall in H.
    specialize (H (N.to_nat y)). rewrite N2Nat.id in H.
    apply Nat.eqb_eq, H, in_seq. lia. }
  rewrite L. reflexivity.
Qed.

Lemma fraction_whole_second d : fraction (whole_second d) = [].
Proof. reflexivity. Qed.

(** C7, as the code has it.  /time takes one reading of the clock, and all
    four fields of its answer are computed from that reading; it answers
    when the conversion of the reading to the local zone returns, and raises
    without an answer when that conversion raises.  For a four-digit year,
    [date], the letter T and [time] together are the ISO form of the reading
    cut to the whole second; the [datetime] field is this text followed by
    the microseconds of the same reading when they are not zero, so the two
    name the same instant exactly when the reading falls on a whole
    second. *)
Theorem time_fields_one_sample (env : clock) (log : list clock_event) :
  let now := reading env (length log) in
  snd (get_time env log) = log ++ [ReadNow]
  ∧ (∀ tz, local_tzname env now = Done tz →
           get_time env log
           = (Done (time_info (isoformat now) (strftime_Ymd now)
                              (strftime_HMS now) tz),
              log ++ [ReadNow]))
  ∧ (∀ e, local_tzname env now = Raised e →
          get_time env log = (Raised e, log ++ [ReadNow]))
  ∧ ((1000 ≤ year now ≤ 9999)%N →
     denotes (strftime_Ymd now ++ lit "T" ++ strftime_HMS now)
             (whole_second now)
     ∧ isoformat now
       = (strftime_Ymd now ++ lit "T" ++ strftime_HMS now) ++ fraction now
     ∧ (denotes (strftime_Ymd now ++ lit "T" ++ strftime_HMS now) now
        ↔ microsecond now = 0%N)).
Proof.
  intros now.
  assert (Hrun : get_time env log
                 = (match local_tzname env now with
                    | Done tz =>
                      Done (time_info (isoformat now) (strftime_Ymd now)
                                      (strftime_HMS now) tz)
                    | Raised e => Raised e
                    | Blocked => Blocked
                    end, log ++ [ReadNow])).
  { unfold get_time, bind, datetime_now, ask, ret. fold now.
    destruct (local_tzname env now); reflexivity. }
  split; [by rewrite Hrun |].
  split; [intros tz Htz; by rewrite Hrun, Htz |].
  split; [intros e He; by rewrite Hrun, He |].
  intros Hy.
  assert (Iso : ∀ d, year d = year now →
                isoformat d
                = (strftime_Ymd d ++ lit "T" ++ strftime_HMS d) ++ fraction d).
  { intros d Hd. unfold isoformat, strftime_Ymd, strftime_HMS.
    rewrite dec_four_digits by (rewrite Hd; exact Hy).
    rewrite <- !app_assoc. reflexivity. }
  split; [| split].
  - unfold denotes. rewrite Iso by reflexivity.
    rewrite fraction_whole_second, app_nil_r. reflexivity.
  - apply Iso. reflexivity.
  - unfold denotes. rewrite Iso by reflexivity. unfold fraction. split.
    + intros H. destruct (microsecond now =? 0)%N eqn:E.
      * by apply N.eqb_eq.
      * assert (F : lit "." ++ pad0 6 (microsecond now) = []).
        { eapply app_inv_head. rewrite app_nil_r. exact H. }
        change (lit ".") with [46%N] in F. discriminate.
    + intros ->. cbn [N.eqb]. apply app_nil_r.
Qed.

Lemma time_fields_one_sample_witness :
  (get_time berlin_clock []
   = (Done (time_info (lit "2024-05-17T12:30:45.250000")
                      (lit "2024-05-17") (lit "12:30:45") (lit "CEST")),
      [ReadNow])
   ∧ denotes (lit "2024-05-17T12:30:45") (whole_second quarter_past)
   ∧ lit "2024-05-17T12:30:45.250000"
     = lit "2024-05-17T12:30:45" ++ lit ".250000")
  ∧ get_time last_clock [] = (Raised year_out_of_range, [ReadNow]).
Proof.
  destruct (time_fields_one_sample berlin_clock [])
    as (_ & Hrun & _ & Hfields).
  destruct Hfields as (Hden & Hiso & _).
  { cbn. lia. }
  destruct (time_fields_one_sample last_clock []) as (_ & _ & Hraise & _).
  split.
  - split; [exact (Hrun (lit "CEST") eq_refl) |].
    split; [exact Hden | reflexivity].
  - exact (Hraise year_out_of_range eq_refl).
Defined.

(** C7 as stated fails off the whole second: at 12:30:45.250000 the date
    and time fields put together name 12:30:45, which is not the instant the
    datetime field names. *)
Lemma time_fields_drop_microseconds :
  reading berlin_clock 0 = quarter_past
  ∧ get_time berlin_clock []
    = (Done (time_info (isoformat quarter_past) (strftime_Ymd quarter_past)
                       (strftime_HMS quarter_past) (lit "CEST")),
       [ReadNow])
  ∧ denotes (isoformat quarter_past) quarter_past
  ∧ ¬ denotes (strftime_Ymd quarter_past ++ lit "T" ++ strftime_HMS quarter_past)
              quarter_past.
Proof.
  split; [reflexivity |]. split; [reflexivity |]. split; [reflexivity |].
  unfold denotes. vm_compute. discriminate.
Qed.

(** * /system *)

(** ** The three probes *)

Ltac probe_cases env cmd :=
  unfold hangs, probe_output, try_except, bind, check_output, call,
    decoded, lift, ret;
  destruct (subprocess env cmd) as [e | elapsed code out |];
  cbn [check_output_of];
  [ | destruct (code =? 0); [destruct (decode out) |] | ].

Lemma gnome_probe_ends env info log :
  ¬ hangs env gnome_cmd →
  gnome_probe info env log
  = (Done (<[ lit "gnome_version" := gnome_field (probe_output env gnome_cmd) ]>
             info),
     log ++ [invoked gnome_cmd]).
Proof.
  unfold gnome_probe. probe_cases env gnome_cmd; intros H;
    try reflexivity. destruct (H eq_refl).
Qed.

Lemma flatpak_probe_ends env info log :
  ¬ hangs env flatpak_cmd →
  flatpak_probe info env log
  = (Done (<[ lit "flatpak_apps" :=
                JArr (JStr <$> take 10
                        (flatpak_entries (probe_output env flatpak_cmd))) ]>
             (<[ lit "flatpak_count" :=
                   JInt (Z.of_nat (length
                          (flatpak_entries (probe_output env flatpak_cmd)))) ]>
                info)),
     log ++ [invoked flatpak_cmd]).
Proof.
  unfold flatpak_probe. probe_cases env flatpak_cmd; intros H;
    try reflexivity. destruct (H eq_refl).
Qed.

Lemma apt_probe_ends env info log :
  ¬ hangs env dpkg_cmd →
  apt_probe info env log
  = (Done (<[ lit "apt_packages_count" :=
                apt_field (probe_output env dpkg_cmd) ]> info),
     log ++ [invoked dpkg_cmd]).
Proof.
  unfold apt_probe. probe_cases env dpkg_cmd; intros H;
    try reflexivity. destruct (H eq_refl).
Qed.

Lemma gnome_probe_hangs env info log :
  hangs env gnome_cmd →
  gnome_probe info env log = (Blocked, log ++ [invoked gnome_cmd]).
Proof.
  unfold gnome_probe, hangs, try_except, bind, check_output, call.
  intros ->. reflexivity.
Qed.

Lemma flatpak_probe_hangs env info log :
  hangs env flatpak_cmd →
  flatpak_probe info env log = (Blocked, log ++ [invoked flatpak_cmd]).
Proof.
  unfold flatpak_probe, hangs, try_except, bind, check_output, call.
  intros ->. reflexivity.
Qed.

Lemma apt_probe_hangs env info log :
  hangs env dpkg_cmd →
  apt_probe info env log = (Blocked, log ++ [invoked dpkg_cmd]).
Proof.
  unfold apt_probe, hangs, try_except, bind, check_output, call.
  intros ->. reflexivity.
Qed.

(** ** The handler past its probes *)

Lemma system_info_snapshot env info procs :
  base_reads env info →
  (∀ cmd, cmd ∈ probe_cmds → ¬ hangs env cmd) →
  psutil_process_iter env = Done procs →
  run system_info env
  = (Done (jsonify (JObj (snapshot env info procs))), probe_log).
Proof.
  intros Hbase Hends Hprocs.
  assert (H1 : ¬ hangs env gnome_cmd) by (apply Hends; set_solver).
  assert (H2 : ¬ hangs env flatpak_cmd) by (apply Hends; set_solver).
  assert (H3 : ¬ hangs env dpkg_cmd) by (apply Hends; set_solver).
  unfold base_reads, run in Hbase.
  unfold system_info, run, try_except. unfold bind at 1. rewrite Hbase.
  unfold bind at 1. rewrite gnome_probe_ends by assumption.
  unfold bind at 1. rewrite flatpak_probe_ends by assumption.
  unfold bind at 1. rewrite apt_probe_ends by assumption.
  unfold bind at 1, ask at 1. rewrite Hprocs. reflexivity.
Qed.

(** ** The opening dict literal *)

Ltac destruct_reads :=
  repeat match goal with
         | |- context [match ?read with Done _ => _ | Raised _ => _ | Blocked => _ end] =>
           destruct read
         end.

(** The reads of the dict literal log nothing, however they end. *)
Lemma base_info_log env log : snd (base_info env log) = log.
Proof.
  unfold base_info, bind, ask, lift, ret. destruct_reads; reflexivity.
Qed.

Lemma key_differs (a b : string) :
  bool_decide (lit a = lit b) = false → lit a ≠ lit b.
Proof. intros H. by apply bool_decide_eq_false in H. Qed.

Ltac key_lookup :=
  repeat first
    [ rewrite lookup_insert_eq
    | rewrite lookup_insert_ne by (apply key_differs; vm_compute; reflexivity)
    | rewrite lookup_singleton_eq ].

Lemma base_reads_numeric env info k :
  base_reads env info →
  k ∈ numeric_fields →
  ∃ v, info !! k = Some v
       ∧ (is_number v ∨ (k = lit "cpu_count" ∧ v = JNull)).
Proof.
  unfold base_reads, run, base_info, bind, ask, lift, ret.
  destruct_reads; try discriminate.
  intros [= <-] Hk.
  unfold numeric_fields in Hk.
  repeat (apply elem_of_cons in Hk as [-> | Hk]);
    [ .. | by apply elem_of_nil in Hk ];
    eexists; (split; [key_lookup; reflexivity |]);
    try (left; exact I).
  match goal with |- context [of_opt_int ?o] => destruct o end;
    [left; exact I | right; split; reflexivity].
Qed.

Lemma snapshot_numeric env info procs k :
  k ∈ numeric_fields → snapshot env info procs !! k = info !! k.
Proof.
  intros Hk. unfold numeric_fields in Hk. unfold snapshot.
  repeat (apply elem_of_cons in Hk as [-> | Hk]);
    [ .. | by apply elem_of_nil in Hk ];
    key_lookup; reflexivity.
Qed.

Lemma snapshot_probe_fields env info procs :
  let m := snapshot env info procs in
  m !! lit "gnome_version" = Some (gnome_field (probe_output env gnome_cmd))
  ∧ m !! lit "flatpak_count"
    = Some (JInt (Z.of_nat (length
                   (flatpak_entries (probe_output env flatpak_cmd)))))
  ∧ m !! lit "flatpak_apps"
    = Some (JArr (JStr <$> take 10
                    (flatpak_entries (probe_output env flatpak_cmd))))
  ∧ m !! lit "apt_packages_count"
    = Some (apt_field (probe_output env dpkg_cmd))
  ∧ m !! lit "top_processes" = Some (JArr (top_processes procs)).
Proof.
  cbn zeta. unfold snapshot. repeat split; key_lookup; reflexivity.
Qed.

(** ** Sorting by a key, descending *)

Section Sorting.
Context {A : Type} (key : A → Q).

Lemma insert_desc_perm x l : Permutation (insert_desc key x l) (x :: l).
Proof.
  induction l as [| y l IH]; cbn [insert_desc]; [reflexivity |].
  destruct (Qle_bool (key y) (key x)); [reflexivity |].
  rewrite IH. apply perm_swap.
Qed.

Lemma sorted_reverse_perm l : Permutation (sorted_reverse key l) l.
Proof.
  induction l as [| x l IH]; cbn; [reflexivity |].
  rewrite insert_desc_perm. by constructor.
Qed.

Lemma insert_desc_sorted x l :
  StronglySorted (descending key) l →
  StronglySorted (descending key) (insert_desc key x l).
Proof.
  induction 1 as [| y l Hl IH Hy]; cbn [insert_desc].
  - repeat constructor.
  - destruct (Qle_bool (key y) (key x)) eqn:E.
    + apply Qle_bool_iff in E.
      constructor; [by constructor |].
      constructor; [exact E |].
      eapply Forall_impl; [exact Hy |].
      intros z Hz. unfold descending in *.
      by apply (Qle_trans _ (key y)).
    + assert (Hlt : (key x <= key y)%Q).
      { destruct (Qlt_le_dec (key x) (key y)) as [Hlt | Hle].
        - by apply Qlt_le_weak.
        - apply Qle_bool_iff in Hle. congruence. }
      constructor; [exact IH |].
      rewrite insert_desc_perm. by constructor.
Qed.

Lemma sorted_reverse_sorted l :
  StronglySorted (descending key) (sorted_reverse key l).
Proof.
  induction l as [| x l IH]; cbn; [constructor |].
  by apply insert_desc_sorted.
Qed.
End Sorting.

Lemma cpu_key_zero_for_null p :
  (cpu_key p == zero_for_null (p_cpu_percent p))%Q.
Proof.
  unfold cpu_key, zero_for_null. destruct (p_cpu_percent p) as [q |]; cbn.
  - destruct (Qeq_bool q 0) eqn:E; [| reflexivity].
    apply Qeq_bool_iff in E. by symmetry.
  - reflexivity.
Qed.

Lemma descending_by_cpu p p' :
  descending cpu_key p p' → by_cpu_descending p p'.
Proof.
  unfold descending, by_cpu_descending.
  by rewrite !cpu_key_zero_for_null.
Qed.

Lemma process_entry_carries p : carries p (process_entry p).
Proof.
  eexists. split; [reflexivity |]. split.
  { rewrite dom_insert_L, dom_singleton_L. reflexivity. }
  repeat split.
  - intros s E. rewrite E. key_lookup. reflexivity.
  - intros E. rewrite E. key_lookup. reflexivity.
  - intros q E. rewrite E. key_lookup. reflexivity.
  - intros E. rewrite E. key_lookup. reflexivity.
Qed.

(** [sorted_reverse] is stable: the items of one key value come out in the
    order they went in.  With the two lemmas above this fixes the result,
    so the insertion sort stands for the interpreter's sort. *)
Section Stability.
Context {A : Type} (key : A → Q) (k : Q).

Lemma insert_desc_filter x l :
  filter (λ y, same_key key k y) (insert_desc key x l)
  = filter (λ y, same_key key k y) (x :: l).
Proof.
  induction l as [| y l IH]; cbn [insert_desc]; [reflexivity |].
  destruct (Qle_bool (key y) (key x)) eqn:E; [reflexivity |].
  rewrite filter_cons, IH, !filter_cons.
  destruct (decide (same_key key k y)) as [Hy | Hy];
    destruct (decide (same_key key k x)) as [Hx | Hx]; try reflexivity.
  exfalso. unfold same_key in Hx, Hy.
  apply Is_true_true, Qeq_bool_iff in Hx.
  apply Is_true_true, Qeq_bool_iff in Hy.
  assert (Hle : (key y <= key x)%Q).
  { rewrite Hx, Hy. apply Qle_refl. }
  apply Qle_bool_iff in Hle. congruence.
Qed.

Lemma sorted_reverse_stable l :
  filter (λ y, same_key key k y) (sorted_reverse key l) = filter (λ y, same_key key k y) l.
Proof.
  induction l as [| x l IH]; [reflexivity |].
  cbn [sorted_reverse foldr]. rewrite insert_desc_filter.
  fold (sorted_reverse key l). by rewrite !filter_cons, IH.
Qed.
End Stability.

(** ** The snapshot *)

Lemma probe_fails_ends env cmd : probe_fails env cmd → ¬ hangs env cmd.
Proof. by intros [H _]. Qed.

(** A read of the opening dict literal that raises ends the handler in its
    outer [except]: status 500 with the description, no probe run. *)
Lemma system_info_read_raises env e :
  run base_info env = (Raised e, []) →
  run system_info env = (Done (error_response 500 (exc_str e)), []).
Proof.
  intros H. unfold run in H. unfold system_info, run, try_except.
  unfold bind at 1. rewrite H. reflexivity.
Qed.

(** C5, as the code has it.  When the reads of the static identity and of
    the resource metrics succeed and the processes can be listed, a /system
    request whose three probes all fail is answered with status 200; the
    body holds every numeric field with a number (cpu_count is null when
    the platform cannot tell it), gnome_version is the string unknown, both
    package counts are 0 and the list of applications is empty. *)
Theorem probes_all_failing (env : host) (info : gmap str json)
    (procs : list procinfo) :
  base_reads env info →
  psutil_process_iter env = Done procs →
  (∀ cmd, cmd ∈ probe_cmds → probe_fails env cmd) →
  ∃ m, run system_info env
       = (Done {| status := 200; body := JObj m |}, probe_log)
       ∧ (∀ k, k ∈ numeric_fields →
               ∃ v, m !! k = Some v
                    ∧ (is_number v ∨ (k = lit "cpu_count" ∧ v = JNull)))
       ∧ m !! lit "gnome_version" = Some (JStr (lit "unknown"))
       ∧ m !! lit "flatpak_count" = Some (JInt 0)
       ∧ m !! lit "flatpak_apps" = Some (JArr [])
       ∧ m !! lit "apt_packages_count" = Some (JInt 0).
Proof.
  intros Hbase Hprocs Hfail.
  exists (snapshot env info procs). split.
  { apply system_info_snapshot; [assumption | | assumption].
    intros cmd Hcmd. by apply probe_fails_ends, Hfail. }
  split.
  { intros k Hk. rewrite snapshot_numeric by assumption.
    by apply (base_reads_numeric env). }
  destruct (snapshot_probe_fields env info procs) as (G & Fc & Fa & Ap & _).
  destruct (Hfail gnome_cmd) as [_ E1]; [set_solver |].
  destruct (Hfail flatpak_cmd) as [_ E2]; [set_solver |].
  destruct (Hfail dpkg_cmd) as [_ E3]; [set_solver |].
  rewrite E1 in G. rewrite E2 in Fc, Fa. rewrite E3 in Ap.
  auto.
Qed.

Lemma probes_all_failing_witness :
  ∃ m, run system_info plain_host
       = (Done {| status := 200; body := JObj m |}, probe_log)
       ∧ (∀ k, k ∈ numeric_fields →
               ∃ v, m !! k = Some v
                    ∧ (is_number v ∨ (k = lit "cpu_count" ∧ v = JNull)))
       ∧ m !! lit "gnome_version" = Some (JStr (lit "unknown"))
       ∧ m !! lit "flatpak_count" = Some (JInt 0)
       ∧ m !! lit "flatpak_apps" = Some (JArr [])
       ∧ m !! lit "apt_packages_count" = Some (JInt 0).
Proof.
  eapply (probes_all_failing plain_host plain_info seven_procs).
  - reflexivity.
  - reflexivity.
  - intros cmd _. split; [discriminate | reflexivity].
Defined.

(** C5 as stated fails when a metric cannot be read: with all three probes
    failing and the disk unreadable the answer is 500, not 200, and so it
    is when the processes cannot be listed.  When the CPU count cannot be
    determined the answer is 200 but the cpu_count field is null, not a
    number. *)
Lemma unreadable_disk_is_500 :
  ((∀ cmd, cmd ∈ probe_cmds → probe_fails broken_host cmd)
   ∧ run system_info broken_host
     = (Done (error_response 500 (lit "[Errno 13] Permission denied: '/'")),
        [])
   ∧ ∀ r, fst (run system_info broken_host) = Done r → status r ≠ 200)
  ∧ ((∀ cmd, cmd ∈ probe_cmds → probe_fails unlistable_host cmd)
     ∧ run system_info unlistable_host
       = (Done (error_response 500 (lit "[Errno 24] Too many open files")),
          probe_log))
  ∧ ((∀ cmd, cmd ∈ probe_cmds → probe_fails uncounted_host cmd)
     ∧ (∃ m, run system_info uncounted_host
             = (Done {| status := 200; body := JObj m |}, probe_log))
     ∧ field "cpu_count" (run system_info uncounted_host) = Some JNull
     ∧ ¬ is_number JNull).
Proof.
  assert (Hfails : ∀ env, subprocess env = subprocess plain_host →
                          ∀ cmd, cmd ∈ probe_cmds → probe_fails env cmd).
  { intros env E cmd _. unfold probe_fails, hangs, probe_output.
    rewrite E. split; [discriminate | reflexivity]. }
  split; [| split].
  - split; [by apply Hfails |]. split.
    + vm_compute. reflexivity.
    + intros r H. vm_compute in H. injection H as <-. discriminate.
  - split; [by apply Hfails |]. vm_compute. reflexivity.
  - split; [by apply Hfails |]. split; [| split].
    + eexists. vm_compute. reflexivity.
    + vm_compute. reflexivity.
    + intros [].
Qed.

Lemma StronglySorted_impl {A} (R S : A → A → Prop) l :
  (∀ x y, R x y → S x y) → StronglySorted R l → StronglySorted S l.
Proof.
  intros HRS. induction 1 as [| x l Hl IH Hx]; constructor; [exact IH |].
  eapply Forall_impl; [exact Hx | auto].
Qed.

(** C6.  Whatever processes /system enumerates, the [top_processes] field
    is made of the first five of them after a descending sort on the CPU
    reading in which an unavailable reading counts as zero; every entry
    carries the name and the reading as they were read, null included. *)
Theorem top_processes_ranked (env : host) (info : gmap str json)
    (procs : list procinfo) :
  base_reads env info →
  (∀ cmd, cmd ∈ probe_cmds → ¬ hangs env cmd) →
  psutil_process_iter env = Done procs →
  ∃ m ranked entries,
    run system_info env
    = (Done {| status := 200; body := JObj m |}, probe_log)
    ∧ Permutation ranked procs
    ∧ StronglySorted by_cpu_descending ranked
    ∧ m !! lit "top_processes" = Some (JArr entries)
    ∧ Forall2 carries (take 5 ranked) entries.
Proof.
  intros Hbase Hends Hprocs.
  exists (snapshot env info procs), (sorted_reverse cpu_key procs),
    (top_processes procs).
  split; [by apply system_info_snapshot |].
  split; [apply sorted_reverse_perm |].
  split.
  { eapply StronglySorted_impl; [apply descending_by_cpu |].
    apply sorted_reverse_sorted. }
  split; [apply snapshot_probe_fields |].
  unfold top_processes. apply Forall2_fmap_r, Forall_Forall2_diag.
  apply Forall_forall. intros p _. apply process_entry_carries.
Qed.

Lemma top_processes_ranked_witness :
  ∃ m ranked entries,
    run system_info plain_host
    = (Done {| status := 200; body := JObj m |}, probe_log)
    ∧ Permutation ranked seven_procs
    ∧ StronglySorted by_cpu_descending ranked
    ∧ m !! lit "top_processes" = Some (JArr entries)
    ∧ Forall2 carries (take 5 ranked) entries.
Proof.
  eapply (top_processes_ranked plain_host plain_info seven_procs).
  - reflexivity.
  - intros cmd _. discriminate.
  - reflexivity.
Defined.

(** ** Probes that do not end *)

Lemma hangs_or_ends env cmd : hangs env cmd ∨ ¬ hangs env cmd.
Proof.
  unfold hangs. destruct (subprocess env cmd); [right | right | left];
    (discriminate || reflexivity).
Qed.

(** How a run of /system ends once the opening reads have succeeded: it is
    stopped by the first probe that hangs, or it gets past all three with
    [probe_log] and answers. *)
Lemma system_info_outcomes env info :
  base_reads env info →
  (hangs env gnome_cmd
   ∧ run system_info env = (Blocked, [invoked gnome_cmd]))
  ∨ (hangs env flatpak_cmd
     ∧ run system_info env = (Blocked, [invoked gnome_cmd; invoked flatpak_cmd]))
  ∨ (hangs env dpkg_cmd
     ∧ run system_info env = (Blocked, probe_log))
  ∨ ((∀ cmd, cmd ∈ probe_cmds → ¬ hangs env cmd)
     ∧ snd (run system_info env) = probe_log
     ∧ (psutil_process_iter env ≠ Blocked →
        ∃ r, fst (run system_info env) = Done r)).
Proof.
  intros Hbase. unfold base_reads, run in Hbase.
  remember (run system_info env) as R eqn:ER.
  unfold system_info, run, try_except in ER.
  unfold bind at 1 in ER. rewrite Hbase in ER.
  unfold bind at 1 in ER.
  destruct (hangs_or_ends env gnome_cmd) as [H1 | H1].
  { left. split; [exact H1 |].
    rewrite gnome_probe_hangs in ER by assumption. exact ER. }
  rewrite gnome_probe_ends in ER by assumption.
  unfold bind at 1 in ER.
  destruct (hangs_or_ends env flatpak_cmd) as [H2 | H2].
  { right. left. split; [exact H2 |].
    rewrite flatpak_probe_hangs in ER by assumption. exact ER. }
  rewrite flatpak_probe_ends in ER by assumption.
  unfold bind at 1 in ER.
  destruct (hangs_or_ends env dpkg_cmd) as [H3 | H3].
  { right. right. left. split; [exact H3 |].
    rewrite apt_probe_hangs in ER by assumption. exact ER. }
  rewrite apt_probe_ends in ER by assumption.
  unfold bind at 1, ask at 1 in ER.
  right. right. right. split.
  { intros cmd Hcmd. unfold probe_cmds in Hcmd.
    repeat (apply elem_of_cons in Hcmd as [-> | Hcmd]); try assumption.
    by apply elem_of_nil in Hcmd. }
  destruct (psutil_process_iter env) as [procs | e |]; subst R;
    (split; [reflexivity |]); intros Hp;
    [eexists; reflexivity | eexists; reflexivity | congruence].
Qed.

(** C9, as the code has it.  No subprocess invocation of /system carries a
    timeout.  Once the opening reads have succeeded, a probe whose command
    never exits blocks the handler for good, and a run in which the three
    commands end (and the process listing comes back) is answered; a probe
    is a failed probe only when its command ends. *)
Theorem probes_wait_without_bound (env : host) (info : gmap str json) :
  base_reads env info →
  (∀ i, i ∈ snd (run system_info env) → timeout i = None)
  ∧ ((∃ cmd, cmd ∈ probe_cmds ∧ hangs env cmd) →
     fst (run system_info env) = Blocked)
  ∧ ((∀ cmd, cmd ∈ probe_cmds → ¬ hangs env cmd) →
     psutil_process_iter env ≠ Blocked →
     ∃ r, fst (run system_info env) = Done r).
Proof.
  intros Hbase.
  assert (Hnone : ∀ i, i ∈ probe_log → timeout i = None).
  { intros i Hi. unfold probe_log, probe_cmds in Hi. cbn in Hi.
    repeat (apply elem_of_cons in Hi as [-> | Hi]); try reflexivity.
    by apply elem_of_nil in Hi. }
  destruct (system_info_outcomes env info Hbase)
    as [[H E] | [[H E] | [[H E] | (Hends & Elog & Eret)]]].
  1-3: rewrite E; cbn [fst snd]; split;
    [ intros i Hi; unfold probe_log, probe_cmds in Hi; cbn in Hi;
      repeat (apply elem_of_cons in Hi as [-> | Hi]); try reflexivity;
      by apply elem_of_nil in Hi
    | split; [reflexivity |] ].
  1: intros Hends _; destruct (Hends gnome_cmd); [set_solver | assumption].
  1: intros Hends _; destruct (Hends flatpak_cmd); [set_solver | assumption].
  1: intros Hends _; destruct (Hends dpkg_cmd); [set_solver | assumption].
  rewrite Elog. split; [exact Hnone |]. split.
  - intros (cmd & Hcmd & Hh). destruct (Hends cmd Hcmd Hh).
  - intros _. exact Eret.
Qed.

Lemma probes_wait_without_bound_witness :
  (∀ i, i ∈ snd (run system_info hung_host) → timeout i = None)
  ∧ fst (run system_info hung_host) = Blocked
  ∧ ∃ r, fst (run system_info plain_host) = Done r.
Proof.
  destruct (probes_wait_without_bound hung_host plain_info eq_refl) as (Hlog & Hhang & _).
  destruct (probes_wait_without_bound plain_host plain_info eq_refl) as (_ & _ & Hends).
  split; [exact Hlog |]. split.
  - apply Hhang. exists gnome_cmd. split; [| reflexivity].
    apply elem_of_cons. by left.
  - apply Hends; [| discriminate].
    intros cmd _. discriminate.
Defined.

(** C9 as stated fails: the invocation of gnome-shell carries no timeout,
    and when gnome-shell never exits the handler never answers. *)
Lemma hung_probe_blocks_snapshot :
  hangs hung_host gnome_cmd
  ∧ run system_info hung_host = (Blocked, [invoked gnome_cmd])
  ∧ timeout (invoked gnome_cmd) = None
  ∧ ¬ ∃ r, fst (run system_info hung_host) = Done r.
Proof.
  split; [reflexivity |]. split; [vm_compute; reflexivity |].
  split; [reflexivity |].
  intros [r H]. vm_compute in H. discriminate.
Qed.

(** ** The flatpak listing *)

Lemma truthy_items_nonblank text :
  truthy_items (split_nl text) = nonblank_lines is_empty text.
Proof.
  unfold truthy_items, nonblank_lines, is_empty.
  induction (split_nl text) as [| l ls IH]; [reflexivity |].
  rewrite !filter_cons, IH. rewrite negb_involutive. reflexivity.
Qed.

Lemma split_nl_cons_nl s : split_nl (NL :: s) = [] :: split_nl s.
Proof. reflexivity. Qed.

Lemma split_nl_not_nil s : split_nl s ≠ [].
Proof.
  destruct s as [| c s]; cbn [split_nl]; [discriminate |].
  destruct (c =? NL)%N; [discriminate |].
  destruct (split_nl s); discriminate.
Qed.

Lemma split_nl_snoc_nl s : split_nl (s ++ [NL]) = split_nl s ++ [[]].
Proof.
  induction s as [| c s IH]; [reflexivity |].
  cbn [app split_nl]. rewrite IH.
  destruct (c =? NL)%N; [reflexivity |].
  pose proof (split_nl_not_nil s) as Hne.
  destruct (split_nl s) as [| l ls]; [congruence | reflexivity].
Qed.

Lemma nonblank_cons_nl s :
  nonblank_lines is_empty (NL :: s) = nonblank_lines is_empty s.
Proof. unfold nonblank_lines. rewrite split_nl_cons_nl. reflexivity. Qed.

Lemma nonblank_snoc_nl s :
  nonblank_lines is_empty (s ++ [NL]) = nonblank_lines is_empty s.
Proof.
  unfold nonblank_lines. rewrite split_nl_snoc_nl, filter_app.
  cbn. apply app_nil_r.
Qed.

(** On a text whose only whitespace is the newline, stripping the left end
    and stripping the right end only take newlines away, and the non-empty
    lines stay what they were. *)
Lemma lstrip_newline_only s :
  newline_only s →
  newline_only (drop_while isspace s)
  ∧ nonblank_lines is_empty (drop_while isspace s)
    = nonblank_lines is_empty s.
Proof.
  unfold newline_only.
  induction 1 as [| c s Hc Hs [IH1 IH2]];
    [split; [apply Forall_nil_2 | reflexivity] |].
  cbn [drop_while]. destruct (isspace c) eqn:E.
  - assert (c = NL) as -> by auto. rewrite nonblank_cons_nl. by split.
  - split; [| reflexivity].
    constructor; [intros E'; congruence | assumption].
Qed.

Lemma rstrip_newline_only s :
  newline_only s →
  nonblank_lines is_empty (rev (drop_while isspace (rev s)))
  = nonblank_lines is_empty s.
Proof.
  induction s as [| c s IH] using rev_ind; [reflexivity |].
  intros H. apply Forall_app in H as [Hs Hc].
  apply Forall_cons in Hc as [Hc _].
  rewrite rev_unit. cbn [drop_while]. destruct (isspace c) eqn:E.
  - assert (c = NL) as -> by auto. rewrite nonblank_snoc_nl. by apply IH.
  - cbn [rev]. rewrite rev_involutive. reflexivity.
Qed.

Lemma strip_newline_only s :
  newline_only s →
  nonblank_lines is_empty (strip s) = nonblank_lines is_empty s.
Proof.
  intros H. unfold strip.
  destruct (lstrip_newline_only s H) as [H1 H2].
  rewrite rstrip_newline_only by assumption. exact H2.
Qed.

(** The lines of a text hold its characters other than the newline. *)
Lemma split_nl_chars (P : N → Prop) s :
  Forall P s → Forall (Forall (λ c, P c ∧ c ≠ NL)) (split_nl s).
Proof.
  induction 1 as [| c s Hc Hs IH]; [repeat constructor |].
  cbn [split_nl]. destruct (c =? NL)%N eqn:E.
  - constructor; [constructor | exact IH].
  - apply N.eqb_neq in E.
    destruct (split_nl s) as [| l ls]; [repeat constructor; assumption |].
    apply Forall_cons in IH as [Hl Hls].
    constructor; [| exact Hls]. constructor; [by split | exact Hl].
Qed.

Lemma whitespace_line_empty l :
  Forall (λ c, (isspace c = true → c = NL) ∧ c ≠ NL) l →
  is_whitespace l = is_empty l.
Proof.
  destruct 1 as [| c l [Hc Hne] _]; [reflexivity |].
  unfold is_whitespace, is_empty. cbn [forallb nonempty negb].
  destruct (isspace c) eqn:E; [destruct (Hne (Hc eq_refl)) | reflexivity].
Qed.

Lemma nonblank_readings_agree text :
  newline_only text →
  nonblank_lines is_whitespace text = nonblank_lines is_empty text.
Proof.
  intros H. unfold nonblank_lines.
  pose proof (split_nl_chars _ text H) as Hl.
  induction Hl as [| l ls Hl Hls IH]; [reflexivity |].
  rewrite !filter_cons, IH, (whitespace_line_empty l Hl). reflexivity.
Qed.

(** C8, as the code has it.  When the flatpak probe succeeds with output
    [text], the reported count is the number of non-empty lines of [text]
    once the whitespace at its two ends is stripped, and the reported list
    is the first min(10, count) of these lines, in their order; only empty
    lines are dropped.  When the only whitespace of [text] is the newline, as
    in a list of application IDs, these are the non-blank lines of the
    output itself, whether blank means empty or made of whitespace. *)
Theorem flatpak_inventory (env : host) (info : gmap str json)
    (procs : list procinfo) (text : str) :
  base_reads env info →
  (∀ cmd, cmd ∈ probe_cmds → ¬ hangs env cmd) →
  psutil_process_iter env = Done procs →
  probe_output env flatpak_cmd = Some text →
  let entries := nonblank_lines is_empty (strip text) in
  let n := length entries in
  run system_info env
  = (Done (jsonify (JObj (snapshot env info procs))), probe_log)
  ∧ field "flatpak_count" (run system_info env) = Some (JInt (Z.of_nat n))
  ∧ field "flatpak_apps" (run system_info env)
    = Some (JArr (JStr <$> take (10 `min` n) entries))
  ∧ (newline_only text →
     entries = nonblank_lines is_empty text
     ∧ entries = nonblank_lines is_whitespace text).
Proof.
  intros Hbase Hends Hprocs Hout entries n.
  pose proof (system_info_snapshot env info procs Hbase Hends Hprocs) as Hrun.
  destruct (snapshot_probe_fields env info procs) as (_ & Fc & Fa & _).
  rewrite Hout in Fc, Fa. cbn [flatpak_entries] in Fc, Fa.
  rewrite truthy_items_nonblank in Fc, Fa. fold entries in Fc, Fa.
  split; [exact Hrun |].
  unfold field. rewrite Hrun. cbn [fst jsonify body].
  split; [exact Fc |]. split.
  - rewrite Fa. subst n. by rewrite take_min_length.
  - intros Hnl. subst entries.
    rewrite strip_newline_only by assumption.
    split; [reflexivity | by rewrite nonblank_readings_agree].
Qed.

Lemma flatpak_inventory_witness :
  field "flatpak_count" (run system_info (flatpak_host listing_two_apps))
  = Some (JInt 2)
  ∧ field "flatpak_apps" (run system_info (flatpak_host listing_two_apps))
    = Some (JArr [ JStr (lit "org.gnome.Calculator");
                   JStr (lit "org.mozilla.firefox") ])
  ∧ nonblank_lines is_whitespace
      (lit "org.gnome.Calculator" ++ [NL] ++ lit "org.mozilla.firefox" ++ [NL])
    = [lit "org.gnome.Calculator"; lit "org.mozilla.firefox"].
Proof.
  set (text := lit "org.gnome.Calculator" ++ [NL]
               ++ lit "org.mozilla.firefox" ++ [NL]).
  assert (Hnl : newline_only text).
  { unfold newline_only. apply (bool_decide_unpack _). vm_compute. exact I. }
  destruct (flatpak_inventory (flatpak_host listing_two_apps) plain_info seven_procs
              text eq_refl)
    as (_ & Hc & Ha & Hl).
  - intros cmd _. unfold hangs, flatpak_host, with_subprocess. cbn.
    destruct (decide (cmd = flatpak_cmd)); discriminate.
  - reflexivity.
  - vm_compute. reflexivity.
  - destruct (Hl Hnl) as [_ Hw].
    split; [exact Hc |]. split; [exact Ha |].
    rewrite <- Hw. vm_compute. reflexivity.
Defined.

(** C8 as stated fails on a line of whitespace.  Inside the listing such a
    line is counted and listed, so the count is not the number of lines
    with something on them; at the end of the listing it is stripped, so
    the count is not the number of non-empty lines of the output either. *)
Lemma flatpak_blank_lines_miscounted :
  (probe_output (flatpak_host listing_blank_inside) flatpak_cmd
   = Some (lit "a" ++ [NL] ++ lit " " ++ [NL] ++ lit "b" ++ [NL])
   ∧ field "flatpak_count" (run system_info (flatpak_host listing_blank_inside))
     = Some (JInt 3)
   ∧ field "flatpak_apps" (run system_info (flatpak_host listing_blank_inside))
     = Some (JArr [JStr (lit "a"); JStr (lit " "); JStr (lit "b")])
   ∧ nonblank_lines is_whitespace
       (lit "a" ++ [NL] ++ lit " " ++ [NL] ++ lit "b" ++ [NL])
     = [lit "a"; lit "b"])
  ∧ (probe_output (flatpak_host listing_blank_last) flatpak_cmd
     = Some (lit "a" ++ [NL] ++ lit " " ++ [NL])
     ∧ field "flatpak_count" (run system_info (flatpak_host listing_blank_last))
       = Some (JInt 1)
     ∧ nonblank_lines is_empty (lit "a" ++ [NL] ++ lit " " ++ [NL])
       = [lit "a"; lit " "]).
Proof. repeat split; vm_compute; reflexivity. Qed.

(** * Further properties of /weather and /search *)

(** ** One request at most *)

Lemma map_eff_search_entry_log (l : list json) (up : upstream) log :
  snd (map_eff search_entry l up log) = log.
Proof.
  destruct (map_eff_search_entry_outcome l up log)
    as [(rs & ->) | (e & -> & _)]; reflexivity.
Qed.

(** X1.  /weather sends one request when both parameters pass the guard and none
    otherwise, whatever the upstream does with it: a failure is not
    retried.  The request carries the two parameters as they came. *)
Theorem weather_sends_at_most_once (args : multidict) (up : upstream) :
  snd (run (get_weather args) up)
  = if truthy (args_get args (lit "lat")) && truthy (args_get args (lit "lon"))
    then [weather_request_of args]
    else [].
Proof.
  unfold get_weather.
  destruct (truthy (args_get args (lit "lat")));
    [destruct (truthy (args_get args (lit "lon"))) |]; cbn [negb orb andb];
    try reflexivity.
  unfold run, try_except, bind, requests_get, call, getitem, lift, ret.
  fold (weather_request_of args).
  destruct (up (weather_request_of args)) as [resp | e |]; try reflexivity.
  destruct (resp_json resp) as [data | e |]; try reflexivity.
  repeat match goal with
         | |- context [match py_getitem ?v ?k with _ => _ end] =>
           destruct (py_getitem v k)
         end; reflexivity.
Qed.

(** X2.  /search sends one request when [q] passes the guard and none otherwise,
    whatever the upstream does with it; the query goes out as it came, with
    format=json and categories=general, and a timeout of 10. *)
Theorem search_sends_at_most_once (args : multidict) (up : upstream) :
  snd (run (web_search args) up)
  = if truthy (args_get args (lit "q")) then [search_request_of args] else [].
Proof.
  unfold web_search.
  destruct (truthy (args_get args (lit "q"))); cbn [negb]; [| reflexivity].
  unfold run, try_except. unfold bind at 1. unfold requests_get, call.
  fold (search_request_of args).
  destruct (up (search_request_of args)) as [resp | e |]; try reflexivity.
  cbn beta iota. unfold bind at 1, lift at 1.
  destruct (resp_json resp) as [data | e |]; try reflexivity.
  cbn beta iota. unfold bind at 1, lift at 1.
  destruct (py_get data (lit "results") (JArr [])) as [found | e |];
    try reflexivity.
  cbn beta iota. unfold bind at 1, lift at 1.
  destruct (py_slice_items found 5) as [first5 | e |]; try reflexivity.
  cbn beta iota. unfold bind at 1.
  destruct (map_eff_search_entry_outcome first5 up
              ([] ++ [search_request_of args]))
    as [(rs & ->) | (e & -> & _)]; reflexivity.
Qed.

(** ** Every request is answered *)

Lemma truthy_inv o : truthy o = true → ∃ s, o = Some s ∧ s ≠ [].
Proof.
  destruct o as [[| c s] |]; try discriminate.
  intros _. eexists. split; [reflexivity | discriminate].
Qed.

Lemma weather_fields_answer args lat lon up resp data t tu wc ws wu tz :
  args_get args (lit "lat") = Some lat →
  args_get args (lit "lon") = Some lon →
  lat ≠ [] → lon ≠ [] →
  up (weather_request lat lon) = Done resp →
  resp_json resp = Done data →
  weather_fields data t tu wc ws wu tz →
  fst (run (get_weather args) up)
  = Done (jsonify (weather_report t tu wc ws wu tz)).
Proof.
  intros Hlat Hlon Nlat Nlon Hup Hjson (m & c & u & -> & Hc & Hu & F).
  destruct F as (Ft & Ftu & Fwc & Fws & Fwu & Ftz).
  unfold get_weather.
  rewrite (get_weather_past_guard args lat lon) by assumption.
  rewrite Hlat, Hlon.
  unfold run, try_except, bind, requests_get, call, getitem, lift, ret.
  fold (weather_request lat lon). rewrite Hup, Hjson.
  cbn [py_getitem]. rewrite Hc, Hu. cbn [py_getitem].
  rewrite Ft, Ftu, Fwc, Fws, Fwu, Ftz. reflexivity.
Qed.

(** X3.  Against an upstream that comes back, /weather always answers, and with
    one of three statuses: 400 exactly when a parameter is missing or empty,
    200 with an object of the six values found in the document that the
    upstream returned for the request of these parameters, or 500; an
    answer other than 200 has an [error] field. *)
Theorem weather_always_answers (args : multidict) (up : upstream) :
  responsive up →
  ∃ r, fst (run (get_weather args) up) = Done r
       ∧ ((status r = 400
           ∧ (truthy (args_get args (lit "lat")) = false
              ∨ truthy (args_get args (lit "lon")) = false)
           ∧ has_error_field r)
          ∨ (status r = 200
             ∧ truthy (args_get args (lit "lat")) = true
             ∧ truthy (args_get args (lit "lon")) = true
             ∧ ∃ resp data t tu wc ws wu tz,
                 up (weather_request_of args) = Done resp
                 ∧ resp_json resp = Done data
                 ∧ weather_fields data t tu wc ws wu tz
                 ∧ body r = weather_report t tu wc ws wu tz)
          ∨ (status r = 500
             ∧ truthy (args_get args (lit "lat")) = true
             ∧ truthy (args_get args (lit "lon")) = true
             ∧ has_error_field r)).
Proof.
  intros Hup.
  destruct (truthy (args_get args (lit "lat"))) eqn:Tlat; cycle 1.
  { exists weather_400. rewrite get_weather_falsy by auto.
    split; [reflexivity |]. left.
    split; [reflexivity |]. split; [auto | apply error_response_has_field]. }
  destruct (truthy (args_get args (lit "lon"))) eqn:Tlon; cycle 1.
  { exists weather_400. rewrite get_weather_falsy by auto.
    split; [reflexivity |]. left.
    split; [reflexivity |]. split; [auto | apply error_response_has_field]. }
  apply truthy_inv in Tlat as (lat & Hlat & Nlat).
  apply truthy_inv in Tlon as (lon & Hlon & Nlon).
  assert (Herr : ∀ e, run (get_weather args) up
                      = (Done (error_response 500 (exc_str e)),
                         [weather_request lat lon]) →
                 ∃ r, fst (run (get_weather args) up) = Done r
                      ∧ (status r = 500 ∧ true = true ∧ true = true
                         ∧ has_error_field r)).
  { intros e ->. eexists. split; [reflexivity |].
    repeat split. apply error_response_has_field. }
  destruct (Hup (weather_request lat lon)) as [Hcall Hbody].
  destruct (up (weather_request lat lon)) as [resp | e |] eqn:Eup;
    [| | congruence].
  2: { destruct (Herr e) as (r & Hr & H500);
         [by eapply weather_call_raises | eauto 10]. }
  specialize (Hbody resp eq_refl).
  destruct (resp_json resp) as [data | e |] eqn:Ejson; [| | congruence].
  2: { destruct (Herr e) as (r & Hr & H500);
         [by eapply weather_body_raises | eauto 10]. }
  destruct (weather_missing_field args lat lon up resp data)
    as [(t & tu & wc & ws & wu & tz & F) | (e & He & _)]; try assumption.
  - eexists.
    rewrite (weather_fields_answer args lat lon up resp data t tu wc ws wu tz)
      by assumption.
    split; [reflexivity |]. right. left.
    split; [reflexivity |]. do 2 (split; [reflexivity |]).
    exists resp, data, t, tu, wc, ws, wu, tz.
    split; [| split; [exact Ejson | split; [exact F | reflexivity]]].
    unfold weather_request_of. rewrite Hlat, Hlon. exact Eup.
  - destruct (Herr e He) as (r & Hr & H500). eauto 10.
Qed.

Lemma answering_responsive data : responsive (answering data).
Proof. intros ob. split; [discriminate |]. intros resp [= <-]. discriminate. Qed.

Lemma weather_always_answers_witness :
  ∃ r, fst (run (get_weather berlin_args) (answering stub_weather_json)) = Done r
       ∧ ((status r = 400
           ∧ (truthy (args_get berlin_args (lit "lat")) = false
              ∨ truthy (args_get berlin_args (lit "lon")) = false)
           ∧ has_error_field r)
          ∨ (status r = 200
             ∧ truthy (args_get berlin_args (lit "lat")) = true
             ∧ truthy (args_get berlin_args (lit "lon")) = true
             ∧ ∃ resp data t tu wc ws wu tz,
                 answering stub_weather_json (weather_request_of berlin_args)
                 = Done resp
                 ∧ resp_json resp = Done data
                 ∧ weather_fields data t tu wc ws wu tz
                 ∧ body r = weather_report t tu wc ws wu tz)
          ∨ (status r = 500
             ∧ truthy (args_get berlin_args (lit "lat")) = true
             ∧ truthy (args_get berlin_args (lit "lon")) = true
             ∧ has_error_field r)).
Proof.
  apply (weather_always_answers berlin_args (answering stub_weather_json)).
  intros ob. split; [discriminate |]. intros resp [= <-]. discriminate.
Defined.

(** ** The shape of the results *)

Lemma reshaped_shape r : result_shape (reshaped r).
Proof.
  exists {[ lit "title" := default JNull (r !! lit "title");
            lit "url" := default JNull (r !! lit "url");
            lit "snippet" := default (JStr empty_str) (r !! lit "content") ]}.
  split; [reflexivity |].
  rewrite !dom_insert_L, dom_singleton_L. set_solver.
Qed.

Lemma map_eff_search_entry_done (l rs : list json) (up : upstream) log log' :
  map_eff search_entry l up log = (Done rs, log') →
  length rs = length l ∧ Forall result_shape rs.
Proof.
  revert rs. induction l as [| v l IH]; intros rs.
  - intros [= <- _]. split; [reflexivity | constructor].
  - rewrite map_eff_cons.
    destruct v;
      try (rewrite search_entry_other by discriminate; discriminate).
    rewrite search_entry_object.
    destruct (map_eff search_entry l up log) as [[ys | e |] log''] eqn:E;
      try discriminate.
    intros [= <- <-]. destruct (IH ys eq_refl) as [Hlen Hall].
    split; [cbn; congruence |].
    constructor; [apply reshaped_shape | exact Hall].
Qed.

Lemma py_slice_items_length v n l :
  py_slice_items v n = Done l → (length l ≤ n)%nat.
Proof.
  destruct v; cbn [py_slice_items]; try discriminate; intros [= <-].
  - rewrite length_fmap, length_take. lia.
  - rewrite length_take. lia.
Qed.

(** X5.  Whatever the upstream sends, a 200 answer of /search is an object with
    the one field [results], a list of at most five entries, each an object
    with the keys title, url and snippet and no other. *)
Theorem search_success_shape (args : multidict) (up : upstream) (r : response) :
  fst (run (web_search args) up) = Done r →
  status r = 200 →
  ∃ l, body r = JObj {[ lit "results" := JArr l ]}
       ∧ (length l ≤ 5)%nat
       ∧ Forall result_shape l.
Proof.
  unfold web_search.
  destruct (truthy (args_get args (lit "q"))); cbn [negb];
    [| intros [= <-]; discriminate].
  unfold run, try_except. unfold bind at 1. unfold requests_get, call.
  destruct (up _) as [resp | e |];
    [| intros [= <-]; discriminate | discriminate].
  cbn beta iota. unfold bind at 1, lift at 1.
  destruct (resp_json resp) as [data | e |];
    [| intros [= <-]; discriminate | discriminate].
  cbn beta iota. unfold bind at 1, lift at 1.
  destruct (py_get data (lit "results") (JArr [])) as [found | e |];
    [| intros [= <-]; discriminate | discriminate].
  cbn beta iota. unfold bind at 1, lift at 1.
  destruct (py_slice_items found 5) as [first5 | e |] eqn:Eslice;
    [| intros [= <-]; discriminate | discriminate].
  cbn beta iota. unfold bind at 1.
  destruct (map_eff search_entry first5 up _) as [[rs | e |] log'] eqn:Emap;
    [| intros [= <-]; discriminate | discriminate].
  intros [= <-] _. exists rs.
  apply map_eff_search_entry_done in Emap as [Hlen Hall].
  apply py_slice_items_length in Eslice.
  split; [reflexivity |]. split; [lia | exact Hall].
Qed.

Lemma search_success_shape_witness :
  ∃ l, body (search_results (reshaped <$> take 5 eight_hits))
       = JObj {[ lit "results" := JArr l ]}
       ∧ (length l ≤ 5)%nat
       ∧ Forall result_shape l.
Proof.
  apply (search_success_shape test_args
           (answering (results_document (JObj <$> eight_hits)))).
  - vm_compute. reflexivity.
  - reflexivity.
Defined.

(** X4.  Against an upstream that comes back, /search always answers: 400
    exactly when [q] is missing or empty, 200 with a list of results, or 500
    with an [error] field. *)
Theorem search_always_answers (args : multidict) (up : upstream) :
  responsive up →
  ∃ r, fst (run (web_search args) up) = Done r
       ∧ ((status r = 400
           ∧ truthy (args_get args (lit "q")) = false
           ∧ has_error_field r)
          ∨ (status r = 200
             ∧ truthy (args_get args (lit "q")) = true
             ∧ ∃ l, r = search_results l)
          ∨ (status r = 500
             ∧ truthy (args_get args (lit "q")) = true
             ∧ has_error_field r)).
Proof.
  intros Hup.
  destruct (truthy (args_get args (lit "q"))) eqn:Tq; cycle 1.
  { exists search_400. rewrite web_search_falsy by assumption.
    split; [reflexivity |]. left.
    split; [reflexivity |]. split; [reflexivity | apply error_response_has_field]. }
  apply truthy_inv in Tq as (q & Hq & Nq).
  assert (Herr : ∀ e, run (web_search args) up
                      = (Done (error_response 500 (exc_str e)),
                         [search_request q]) →
                 ∃ r, fst (run (web_search args) up) = Done r
                      ∧ (status r = 500 ∧ true = true ∧ has_error_field r)).
  { intros e ->. eexists. split; [reflexivity |].
    repeat split. apply error_response_has_field. }
  destruct (Hup (search_request q)) as [Hcall Hbody].
  destruct (up (search_request q)) as [resp | e |] eqn:Eup; [| | congruence].
  2: { destruct (Herr e) as (r & Hr & H500);
         [by eapply search_call_raises | eauto 10]. }
  specialize (Hbody resp eq_refl).
  destruct (resp_json resp) as [data | e |] eqn:Ejson; [| | congruence].
  2: { destruct (Herr e) as (r & Hr & H500);
         [by eapply search_body_raises | eauto 10]. }
  destruct (search_bad_document args q up resp data)
    as [(l & Hl) | (e & He & _)]; try assumption.
  - exists (search_results l). rewrite Hl. split; [reflexivity |].
    right. left. split; [reflexivity |]. split; [reflexivity | by exists l].
  - destruct (Herr e He) as (r & Hr & H500). eauto 10.
Qed.

Lemma search_always_answers_witness :
  ∃ r, fst (run (web_search test_args) (failing connection_refused)) = Done r
       ∧ ((status r = 400
           ∧ truthy (args_get test_args (lit "q")) = false
           ∧ has_error_field r)
          ∨ (status r = 200
             ∧ truthy (args_get test_args (lit "q")) = true
             ∧ ∃ l, r = search_results l)
          ∨ (status r = 500
             ∧ truthy (args_get test_args (lit "q")) = true
             ∧ has_error_field r)).
Proof.
  apply (search_always_answers test_args (failing connection_refused)).
  intros ob. split; discriminate.
Defined.

(** ** Missing and surplus results *)

Lemma web_search_document (args : multidict) (q : str) (up : upstream)
    (resp : http_response) (m : gmap str json) :
  args_get args (lit "q") = Some q →
  q ≠ [] →
  up (search_request q) = Done resp →
  resp_json resp = Done (JObj m) →
  run (web_search args) up
  = match py_slice_items (default (JArr []) (m !! lit "results")) 5 with
    | Done first5 =>
      match map_eff search_entry first5 up [search_request q] with
      | (Done rs, log) => (Done (search_results rs), log)
      | (Raised e, log) => (Done (error_response 500 (exc_str e)), log)
      | (Blocked, log) => (Blocked, log)
      end
    | Raised e => (Done (error_response 500 (exc_str e)), [search_request q])
    | Blocked => (Blocked, [search_request q])
    end.
Proof.
  intros Hq Nq Hup Hjson.
  unfold web_search. rewrite Hq, truthy_some by assumption.
  cbn [negb format_arg].
  unfold run, try_except. unfold bind at 1. unfold requests_get, call.
  fold (search_request q). rewrite Hup. cbn beta iota.
  unfold bind at 1, lift at 1. rewrite Hjson. cbn beta iota.
  unfold bind at 1, lift at 1. cbn [py_get]. cbn beta iota.
  unfold bind at 1, lift at 1.
  destruct (py_slice_items _ 5) as [first5 | e |]; try reflexivity.
  cbn beta iota. unfold bind at 1. cbn [app].
  destruct (map_eff search_entry first5 up _) as [[rs | e |] log];
    reflexivity.
Qed.

(** X6.  An upstream object without a [results] field, or with an empty list or
    an empty string there, is answered 200 with no results. *)
Theorem search_without_results (args : multidict) (q : str) (up : upstream)
    (resp : http_response) (m : gmap str json) :
  args_get args (lit "q") = Some q →
  q ≠ [] →
  up (search_request q) = Done resp →
  resp_json resp = Done (JObj m) →
  m !! lit "results" = None
  ∨ m !! lit "results" = Some (JArr [])
  ∨ m !! lit "results" = Some (JStr []) →
  run (web_search args) up = (Done (search_results []), [search_request q]).
Proof.
  intros Hq Nq Hup Hjson Hres.
  rewrite (web_search_document args q up resp m) by assumption.
  destruct Hres as [-> | [-> | ->]]; reflexivity.
Qed.

Lemma search_without_results_witness :
  run (web_search test_args) (answering (JObj ∅))
  = (Done (search_results []), [search_request (lit "test")]).
Proof.
  apply (search_without_results test_args (lit "test") _
           {| resp_json := Done (JObj ∅) |} ∅).
  - reflexivity.
  - vm_compute. discriminate.
  - reflexivity.
  - reflexivity.
  - left. apply lookup_empty.
Defined.

Lemma map_eff_search_entry_env (l : list json) (up up' : upstream) log :
  map_eff search_entry l up log = map_eff search_entry l up' log.
Proof.
  induction l as [| v l IH]; [reflexivity |].
  rewrite !map_eff_cons.
  destruct v; try (by rewrite !search_entry_other by discriminate).
  rewrite !search_entry_object, IH. reflexivity.
Qed.

(** X7.  /search reads the first five results and nothing after them: two
    upstream lists that agree on their first five entries get the same
    answer, so a sixth entry is never looked at, well formed or not. *)
Theorem search_reads_first_five (args : multidict) (q : str)
    (up up' : upstream) (resp resp' : http_response)
    (m m' : gmap str json) (l l' : list json) :
  args_get args (lit "q") = Some q →
  q ≠ [] →
  up (search_request q) = Done resp →
  up' (search_request q) = Done resp' →
  resp_json resp = Done (JObj m) →
  resp_json resp' = Done (JObj m') →
  m !! lit "results" = Some (JArr l) →
  m' !! lit "results" = Some (JArr l') →
  take 5 l = take 5 l' →
  run (web_search args) up = run (web_search args) up'.
Proof.
  intros Hq Nq Hup Hup' Hjson Hjson' Hl Hl' Htake.
  rewrite (web_search_document args q up resp m) by assumption.
  rewrite (web_search_document args q up' resp' m') by assumption.
  rewrite Hl, Hl'. cbn [default from_option id py_slice_items].
  rewrite Htake, (map_eff_search_entry_env _ up up'). reflexivity.
Qed.

Lemma search_reads_first_five_witness :
  run (web_search test_args)
      (answering (results_document (JObj <$> eight_hits)))
  = run (web_search test_args)
        (answering (results_document ((JObj <$> take 5 eight_hits) ++ [JNull]))).
Proof.
  eapply (search_reads_first_five test_args (lit "test")).
  - reflexivity.
  - vm_compute. discriminate.
  - reflexivity.
  - reflexivity.
  - reflexivity.
  - reflexivity.
  - apply lookup_singleton_eq.
  - apply lookup_singleton_eq.
  - vm_compute. reflexivity.
Defined.

(** ** Which lookup is reported *)



(** * Further properties of /system *)

(** ** Where a failure is caught *)

(** X9.  A read of the opening dict literal that raises is answered 500 before
    any command is launched; a process listing that raises is answered 500
    after all three probes ran, and their results are thrown away. *)
Theorem system_info_failures (env : host) :
  (∀ e, fst (run base_info env) = Raised e →
        run system_info env = (Done (error_response 500 (exc_str e)), []))
  ∧ (∀ info e,
        base_reads env info →
        (∀ cmd, cmd ∈ probe_cmds → ¬ hangs env cmd) →
        psutil_process_iter env = Raised e →
        run system_info env
        = (Done (error_response 500 (exc_str e)), probe_log)).
Proof.
  split.
  - intros e He. apply system_info_read_raises.
    pose proof (base_info_log env []) as Hlog.
    unfold run in *. destruct (base_info env []) as [o log].
    cbn in He, Hlog. by subst.
  - intros info e Hbase Hends Hprocs.
    assert (H1 : ¬ hangs env gnome_cmd) by (apply Hends; set_solver).
    assert (H2 : ¬ hangs env flatpak_cmd) by (apply Hends; set_solver).
    assert (H3 : ¬ hangs env dpkg_cmd) by (apply Hends; set_solver).
    unfold base_reads, run in Hbase.
    unfold system_info, run, try_except. unfold bind at 1. rewrite Hbase.
    unfold bind at 1. rewrite gnome_probe_ends by assumption.
    unfold bind at 1. rewrite flatpak_probe_ends by assumption.
    unfold bind at 1. rewrite apt_probe_ends by assumption.
    unfold bind at 1, ask at 1. rewrite Hprocs. reflexivity.
Qed.

Lemma system_info_failures_witness :
  run system_info broken_host
  = (Done (error_response 500 (lit "[Errno 13] Permission denied: '/'")), [])
  ∧ run system_info unlistable_host
    = (Done (error_response 500 (lit "[Errno 24] Too many open files")),
       probe_log).
Proof.
  split.
  - apply (proj1 (system_info_failures broken_host)
             (LibError (lit "PermissionError")
                       (lit "[Errno 13] Permission denied: '/'"))).
    reflexivity.
  - eapply (proj2 (system_info_failures unlistable_host) plain_info
              (LibError (lit "OSError") (lit "[Errno 24] Too many open files"))).
    + reflexivity.
    + intros cmd _. discriminate.
    + reflexivity.
Defined.

(** ** The keys of a snapshot *)

Lemma base_reads_keys env info :
  base_reads env info →
  dom info
  = list_to_set
      [ lit "hostname"; lit "kernel"; lit "os"; lit "architecture";
        lit "cpu_percent"; lit "cpu_count";
        lit "memory_total_gb"; lit "memory_used_gb"; lit "memory_percent";
        lit "disk_total_gb"; lit "disk_used_gb"; lit "disk_percent" ].
Proof.
  unfold base_reads, run, base_info, bind, ask, lift, ret.
  destruct_reads; try discriminate.
  intros [= <-].
  rewrite !dom_insert_L, dom_singleton_L. cbn [list_to_set foldr].
  rewrite (right_id_L ∅ (∪)). reflexivity.
Qed.

(** X10.  Every 200 answer of /system has the same seventeen keys, whichever of
    the probes failed. *)
Theorem system_info_keys (env : host) (info : gmap str json)
    (procs : list procinfo) :
  base_reads env info →
  (∀ cmd, cmd ∈ probe_cmds → ¬ hangs env cmd) →
  psutil_process_iter env = Done procs →
  ∃ m, run system_info env
       = (Done {| status := 200; body := JObj m |}, probe_log)
       ∧ dom m = snapshot_keys.
Proof.
  intros Hbase Hends Hprocs.
  exists (snapshot env info procs).
  split; [by apply system_info_snapshot |].
  unfold snapshot. rewrite !dom_insert_L, (base_reads_keys env info Hbase).
  unfold snapshot_keys. cbn [list_to_set foldr]. set_solver.
Qed.

Lemma system_info_keys_witness :
  ∃ m, run system_info (flatpak_host listing_two_apps)
       = (Done {| status := 200; body := JObj m |}, probe_log)
       ∧ dom m = snapshot_keys.
Proof.
  eapply (system_info_keys (flatpak_host listing_two_apps) plain_info seven_procs).
  - reflexivity.
  - intros cmd _. unfold hangs, flatpak_host, with_subprocess. cbn.
    destruct (decide (cmd = flatpak_cmd)); discriminate.
  - reflexivity.
Defined.

(** ** The desktop-shell version *)

Lemma drop_while_decomp {A} (p : A → bool) l :
  ∃ pre, l = pre ++ drop_while p l ∧ Forall (λ x, p x = true) pre.
Proof.
  induction l as [| x l (pre & IH & Hpre)]; [by exists [] |].
  cbn [drop_while]. destruct (p x) eqn:E.
  - exists (x :: pre). split; [cbn; congruence | by constructor].
  - by exists [].
Qed.

Lemma drop_while_head {A} (p : A → bool) l x :
  head (drop_while p l) = Some x → p x = false.
Proof.
  induction l as [| y l IH]; [discriminate |].
  cbn [drop_while]. destruct (p y) eqn:E; [exact IH |].
  intros [= <-]. exact E.
Qed.

Lemma last_rev_head {A} (l : list A) : last (rev l) = head l.
Proof.
  destruct l as [| x l]; [reflexivity |].
  cbn [rev head]. apply last_snoc.
Qed.

(** [strip] cuts a run of whitespace off each end and leaves a text with no
    whitespace at its ends. *)
Lemma strip_decomp s :
  ∃ pre post, s = pre ++ strip s ++ post
              ∧ all_space pre ∧ all_space post ∧ trimmed (strip s).
Proof.
  unfold strip.
  destruct (drop_while_decomp isspace s) as (pre & Hs & Hpre).
  set (t := drop_while isspace s) in *.
  destruct (drop_while_decomp isspace (rev t)) as (post' & Ht & Hpost).
  set (u := drop_while isspace (rev t)) in *.
  assert (Ht' : t = rev u ++ rev post').
  { rewrite <- (rev_involutive t), Ht, rev_app_distr. reflexivity. }
  exists pre, (rev post'). split; [congruence |].
  split; [exact Hpre |]. split.
  { unfold all_space. apply Forall_forall. intros c Hc.
    apply list_elem_of_In, in_rev, list_elem_of_In in Hc.
    revert c Hc. by apply Forall_forall. }
  split.
  - intros c Hc. apply (drop_while_head isspace s). fold t. rewrite Ht'.
    destruct (rev u) as [| c' r]; [discriminate |]. exact Hc.
  - intros c Hc. rewrite last_rev_head in Hc.
    by apply (drop_while_head isspace (rev t)).
Qed.

(** X11.  In a 200 answer the [gnome_version] field is the word unknown when the
    probe failed, and otherwise the command's output with the whitespace at
    its two ends cut off: it never starts or ends with whitespace. *)
Theorem gnome_version_trimmed (env : host) (info : gmap str json)
    (procs : list procinfo) :
  base_reads env info →
  (∀ cmd, cmd ∈ probe_cmds → ¬ hangs env cmd) →
  psutil_process_iter env = Done procs →
  ∃ v, field "gnome_version" (run system_info env) = Some (JStr v)
       ∧ trimmed v
       ∧ (probe_output env gnome_cmd = None → v = lit "unknown")
       ∧ (∀ text, probe_output env gnome_cmd = Some text →
                  ∃ pre post, text = pre ++ v ++ post
                              ∧ all_space pre ∧ all_space post).
Proof.
  intros Hbase Hends Hprocs.
  pose proof (system_info_snapshot env info procs Hbase Hends Hprocs) as Hrun.
  destruct (snapshot_probe_fields env info procs) as (G & _).
  unfold field. rewrite Hrun. cbn [fst jsonify body]. rewrite G.
  unfold gnome_field.
  destruct (probe_output env gnome_cmd) as [text |].
  - exists (strip text).
    destruct (strip_decomp text) as (pre & post & Htext & Hpre & Hpost & Htrim).
    split; [reflexivity |]. split; [exact Htrim |].
    split; [discriminate |].
    intros ? [= <-]. by exists pre, post.
  - exists (lit "unknown"). split; [reflexivity |]. split.
    + split; intros c Hc; vm_compute in Hc; injection Hc as <-; reflexivity.
    + split; [reflexivity | discriminate].
Qed.

Lemma gnome_version_trimmed_witness :
  ∃ v, field "gnome_version" (run system_info (gnome_host banner_gnome))
       = Some (JStr v)
       ∧ trimmed v
       ∧ (probe_output (gnome_host banner_gnome) gnome_cmd = None →
          v = lit "unknown")
       ∧ (∀ text, probe_output (gnome_host banner_gnome) gnome_cmd = Some text →
                  ∃ pre post, text = pre ++ v ++ post
                              ∧ all_space pre ∧ all_space post).
Proof.
  eapply (gnome_version_trimmed (gnome_host banner_gnome) plain_info seven_procs).
  - reflexivity.
  - intros cmd _. unfold hangs, gnome_host, with_subprocess. cbn.
    destruct (decide (cmd = gnome_cmd)); discriminate.
  - reflexivity.
Defined.

(** ** The count of installed packages *)

Lemma later_lines_cons c t : c ≠ NL → later_lines (c :: t) = later_lines t.
Proof.
  intros Hc. unfold later_lines. cbn [split_nl].
  apply N.eqb_neq in Hc. rewrite Hc.
  pose proof (split_nl_not_nil t) as Hne.
  destruct (split_nl t); [congruence | reflexivity].
Qed.

Lemma first_line_prefix p t :
  Forall (λ a, a ≠ NL) p →
  starts_with p (default [] (head (split_nl t))) = starts_with p t.
Proof.
  intros Hp. revert t. induction Hp as [| a p Ha Hp IH]; intros t.
  - reflexivity.
  - destruct t as [| c t]; [reflexivity |].
    cbn [split_nl]. destruct (c =? NL)%N eqn:E.
    + apply N.eqb_eq in E. subst c.
      cbn [head default from_option starts_with].
      apply N.eqb_neq in Ha. rewrite Ha. reflexivity.
    + pose proof (split_nl_not_nil t) as Hne. specialize (IH t).
      destruct (split_nl t) as [| l ls]; [congruence |].
      cbn [head default from_option id starts_with] in *. by rewrite IH.
Qed.

Lemma length_filter_cons_bool {A} (f : A → bool) x xs :
  length (filter (λ y, f y) (x :: xs))
  = ((if f x then 1 else 0) + length (filter (λ y, f y) xs))%nat.
Proof.
  rewrite filter_cons.
  destruct (decide (f x)) as [H | H]; destruct (f x);
    try reflexivity; cbn in H; [destruct H | destruct (H I)].
Qed.

Lemma count_installed_lines_aux (n : nat) (text : str) :
  (length text ≤ n)%nat →
  count (NL :: lit "ii ") text
  = Z.of_nat (length (filter (λ l, installed_line l) (later_lines text))).
Proof.
  revert text. induction n as [| n IH]; intros text Hlen.
  { destruct text; [reflexivity | cbn in Hlen; lia]. }
  destruct text as [| c t]; [reflexivity |].
  cbn [length] in Hlen. unfold count.
  destruct (N.eq_dec c NL) as [-> | Hc].
  - change (later_lines (NL :: t)) with (split_nl t).
    change (count_from (NL :: lit "ii ") 0 (NL :: t))
      with (if starts_with (lit "ii ") t
            then 1 + count_from (NL :: lit "ii ") 3 t
            else count_from (NL :: lit "ii ") 0 t).
    pose proof (first_line_prefix (lit "ii ") t) as Hfirst.
    pose proof (split_nl_not_nil t) as Hne.
    assert (Hlines : split_nl t
                     = default [] (head (split_nl t)) :: later_lines t).
    { unfold later_lines. destruct (split_nl t); [congruence | reflexivity]. }
    rewrite Hlines, length_filter_cons_bool. unfold installed_line at 1.
    rewrite Hfirst by (vm_compute; repeat constructor; discriminate).
    destruct (starts_with (lit "ii ") t) eqn:E.
    + assert (∃ t', t = lit "ii " ++ t') as [t' ->].
      { change (lit "ii ") with [105%N; 105%N; 32%N] in *.
        destruct t as [| a t]; [discriminate |].
        cbn [starts_with] in E. apply andb_prop in E as [E1 E].
        destruct t as [| b t]; [discriminate |].
        cbn [starts_with] in E. apply andb_prop in E as [E2 E].
        destruct t as [| d t]; [discriminate |].
        cbn [starts_with] in E. apply andb_prop in E as [E3 _].
        apply N.eqb_eq in E1, E2, E3. subst. by exists t. }
      change (count_from (NL :: lit "ii ") 3 (lit "ii " ++ t'))
        with (count (NL :: lit "ii ") t').
      change (lit "ii " ++ t') with (105%N :: 105%N :: 32%N :: t').
      rewrite !later_lines_cons by discriminate.
      rewrite IH by (cbn in Hlen; lia). lia.
    + fold (count (NL :: lit "ii ") t). rewrite IH by lia. reflexivity.
  - rewrite later_lines_cons by assumption.
    change (count_from (NL :: lit "ii ") 0 (c :: t))
      with (if (NL =? c)%N && starts_with (lit "ii ") t
            then 1 + count_from (NL :: lit "ii ") 3 t
            else count_from (NL :: lit "ii ") 0 t).
    assert (E : (NL =? c)%N = false) by (apply N.eqb_neq; congruence).
    rewrite E. cbn [andb]. fold (count (NL :: lit "ii ") t). apply IH. lia.
Qed.

Lemma count_installed_lines text :
  count (NL :: lit "ii ") text
  = Z.of_nat (length (filter (λ l, installed_line l) (later_lines text))).
Proof. by apply (count_installed_lines_aux (length text)). Qed.

(** X12.  When dpkg succeeds, [apt_packages_count] is the number of lines of its
    output, the first line left aside, that start with the letters ii and a
    space: a first line of that form is never counted. *)
Theorem apt_count_is_later_installed_lines (env : host)
    (info : gmap str json) (procs : list procinfo) (text : str) :
  base_reads env info →
  (∀ cmd, cmd ∈ probe_cmds → ¬ hangs env cmd) →
  psutil_process_iter env = Done procs →
  probe_output env dpkg_cmd = Some text →
  field "apt_packages_count" (run system_info env)
  = Some (JInt (Z.of_nat
                  (length (filter (λ l, installed_line l) (later_lines text))))).
Proof.
  intros Hbase Hends Hprocs Hout.
  pose proof (system_info_snapshot env info procs Hbase Hends Hprocs) as Hrun.
  destruct (snapshot_probe_fields env info procs) as (_ & _ & _ & Ap & _).
  unfold field. rewrite Hrun. cbn [fst jsonify body]. rewrite Ap, Hout.
  unfold apt_field. by rewrite count_installed_lines.
Qed.

Lemma apt_count_is_later_installed_lines_witness :
  field "apt_packages_count" (run system_info (dpkg_host listing_dpkg))
  = Some (JInt 2).
Proof.
  pose proof (apt_count_is_later_installed_lines (dpkg_host listing_dpkg) plain_info
                seven_procs
                (lit "ii  first-line" ++ [NL] ++ lit "ii  adduser" ++ [NL]
                 ++ lit "rc  old" ++ [NL] ++ lit "ii  zlib1g" ++ [NL])
                eq_refl) as H.
  rewrite H.
  - vm_compute. reflexivity.
  - intros cmd _. unfold hangs, dpkg_host, with_subprocess. cbn.
    destruct (decide (cmd = dpkg_cmd)); discriminate.
  - reflexivity.
  - vm_compute. reflexivity.
Defined.

(** ** The list of applications *)

Lemma flatpak_entries_lines o :
  Forall (λ a, a ≠ [] ∧ NL ∉ a) (flatpak_entries o).
Proof.
  destruct o as [text |]; [| constructor].
  unfold flatpak_entries, truthy_items.
  pose proof (split_nl_chars (λ _, True) (strip text)) as Hl.
  specialize (Hl ltac:(apply Forall_forall; auto)).
  apply Forall_forall. intros a Ha.
  apply list_elem_of_filter in Ha as [Hne Ha]. split.
  - destruct a; [destruct Hne | discriminate].
  - rewrite Forall_forall in Hl. specialize (Hl a Ha).
    intros Hin. rewrite Forall_forall in Hl. by destruct (Hl NL Hin).
Qed.

(** X13.  In every 200 answer, whether the flatpak probe worked or not,
    [flatpak_apps] holds min(10, flatpak_count) entries, and each entry is a
    line: not empty and without a newline in it. *)
Theorem flatpak_apps_bounded (env : host) (info : gmap str json)
    (procs : list procinfo) :
  base_reads env info →
  (∀ cmd, cmd ∈ probe_cmds → ¬ hangs env cmd) →
  psutil_process_iter env = Done procs →
  ∃ (n : nat) (apps : list str),
    field "flatpak_count" (run system_info env) = Some (JInt (Z.of_nat n))
    ∧ field "flatpak_apps" (run system_info env) = Some (JArr (JStr <$> apps))
    ∧ length apps = (10 `min` n)%nat
    ∧ Forall (λ a, a ≠ [] ∧ NL ∉ a) apps.
Proof.
  intros Hbase Hends Hprocs.
  pose proof (system_info_snapshot env info procs Hbase Hends Hprocs) as Hrun.
  destruct (snapshot_probe_fields env info procs) as (_ & Fc & Fa & _).
  unfold field. rewrite Hrun. cbn [fst jsonify body].
  set (entries := flatpak_entries (probe_output env flatpak_cmd)) in *.
  exists (length entries), (take 10 entries).
  split; [exact Fc |]. split; [exact Fa |].
  split; [apply length_take |].
  apply Forall_take, flatpak_entries_lines.
Qed.

Lemma flatpak_apps_bounded_witness :
  ∃ (n : nat) (apps : list str),
    field "flatpak_count" (run system_info (flatpak_host listing_blank_inside))
    = Some (JInt (Z.of_nat n))
    ∧ field "flatpak_apps" (run system_info (flatpak_host listing_blank_inside))
      = Some (JArr (JStr <$> apps))
    ∧ length apps = (10 `min` n)%nat
    ∧ Forall (λ a, a ≠ [] ∧ NL ∉ a) apps.
Proof.
  eapply (flatpak_apps_bounded (flatpak_host listing_blank_inside) plain_info seven_procs).
  - reflexivity.
  - intros cmd _. unfold hangs, flatpak_host, with_subprocess. cbn.
    destruct (decide (cmd = flatpak_cmd)); discriminate.
  - reflexivity.
Defined.

(** ** Ties among the processes *)

(** X14.  [top_processes] never has more than five entries, it has all of them
    when fewer processes were listed, and processes whose readings are equal
    keep the order in which they were enumerated. *)
Theorem top_processes_keeps_ties (env : host) (info : gmap str json)
    (procs : list procinfo) :
  base_reads env info →
  (∀ cmd, cmd ∈ probe_cmds → ¬ hangs env cmd) →
  psutil_process_iter env = Done procs →
  ∃ ranked,
    field "top_processes" (run system_info env)
    = Some (JArr (process_entry <$> take 5 ranked))
    ∧ length (take 5 ranked) = (5 `min` length procs)%nat
    ∧ ∀ k, filter (λ p, same_key cpu_key k p) ranked
           = filter (λ p, same_key cpu_key k p) procs.
Proof.
  intros Hbase Hends Hprocs.
  pose proof (system_info_snapshot env info procs Hbase Hends Hprocs) as Hrun.
  destruct (snapshot_probe_fields env info procs) as (_ & _ & _ & _ & T).
  exists (sorted_reverse cpu_key procs).
  unfold field. rewrite Hrun. cbn [fst jsonify body].
  split; [exact T |]. split.
  - rewrite length_take.
    by rewrite (Permutation_length (sorted_reverse_perm cpu_key procs)).
  - intros k. apply sorted_reverse_stable.
Qed.

Lemma top_processes_keeps_ties_witness :
  ∃ ranked,
    field "top_processes" (run system_info plain_host)
    = Some (JArr (process_entry <$> take 5 ranked))
    ∧ length (take 5 ranked) = (5 `min` length seven_procs)%nat
    ∧ ∀ k, filter (λ p, same_key cpu_key k p) ranked
           = filter (λ p, same_key cpu_key k p) seven_procs.
Proof.
  eapply (top_processes_keeps_ties plain_host plain_info seven_procs).
  - reflexivity.
  - intros cmd _. discriminate.
  - reflexivity.
Defined.

(** ** Probes do not touch each other *)

Lemma probe_output_same env env' cmd :
  subprocess env cmd = subprocess env' cmd →
  probe_output env cmd = probe_output env' cmd.
Proof. unfold probe_output. by intros ->. Qed.

(** X15.  The field of a probe is decided by that probe's command alone: on two
    hosts that both answer 200, the same behaviour of gnome-shell gives the
    same [gnome_version], whatever flatpak and dpkg do and whatever the
    metrics are, and likewise for the two flatpak fields and for the count
    of packages. *)
Theorem probes_are_isolated (env env' : host) (info info' : gmap str json)
    (procs procs' : list procinfo) :
  base_reads env info → base_reads env' info' →
  (∀ cmd, cmd ∈ probe_cmds → ¬ hangs env cmd) →
  (∀ cmd, cmd ∈ probe_cmds → ¬ hangs env' cmd) →
  psutil_process_iter env = Done procs →
  psutil_process_iter env' = Done procs' →
  (subprocess env gnome_cmd = subprocess env' gnome_cmd →
   field "gnome_version" (run system_info env)
   = field "gnome_version" (run system_info env'))
  ∧ (subprocess env flatpak_cmd = subprocess env' flatpak_cmd →
     field "flatpak_count" (run system_info env)
     = field "flatpak_count" (run system_info env')
     ∧ field "flatpak_apps" (run system_info env)
       = field "flatpak_apps" (run system_info env'))
  ∧ (subprocess env dpkg_cmd = subprocess env' dpkg_cmd →
     field "apt_packages_count" (run system_info env)
     = field "apt_packages_count" (run system_info env')).
Proof.
  intros Hbase Hbase' Hends Hends' Hprocs Hprocs'.
  pose proof (system_info_snapshot env info procs Hbase Hends Hprocs) as Hrun.
  pose proof (system_info_snapshot env' info' procs' Hbase' Hends' Hprocs')
    as Hrun'.
  destruct (snapshot_probe_fields env info procs) as (G & Fc & Fa & Ap & _).
  destruct (snapshot_probe_fields env' info' procs')
    as (G' & Fc' & Fa' & Ap' & _).
  unfold field. rewrite Hrun, Hrun'. cbn [fst jsonify body].
  rewrite G, G', Fc, Fc', Fa, Fa', Ap, Ap'.
  split; [| split]; intros E; rewrite (probe_output_same _ _ _ E); auto.
Qed.

Lemma probes_are_isolated_witness :
  field "gnome_version" (run system_info (flatpak_host listing_two_apps))
  = field "gnome_version" (run system_info (dpkg_host listing_dpkg)).
Proof.
  eapply (proj1 (probes_are_isolated (flatpak_host listing_two_apps)
                   (dpkg_host listing_dpkg) plain_info plain_info seven_procs seven_procs
                   eq_refl eq_refl _ _ eq_refl eq_refl)).
  reflexivity.
  Unshelve.
  - intros cmd _. unfold hangs, flatpak_host, with_subprocess. cbn.
    destruct (decide (cmd = flatpak_cmd)); discriminate.
  - intros cmd _. unfold hangs, dpkg_host, with_subprocess. cbn.
    destruct (decide (cmd = dpkg_cmd)); discriminate.
Defined.

(** * /health *)

Lemma two_digits_checked :
  forallb (λ n, Nat.eqb (length (pad0 2 (N.of_nat n))) 2)
          (seq 0 (N.to_nat 100))
  = true.
Proof. vm_compute. reflexivity. Qed.

Lemma pad0_two (n : N) : (n < 100)%N → length (pad0 2 n) = 2%nat.
Proof.
  intros Hn. pose proof two_digits_checked as H.
  rewrite forallb_forall in H.
  specialize (H (N.to_nat n)). rewrite N2Nat.id in H.
  apply Nat.eqb_eq, H, in_seq. lia.
Qed.

Lemma pad0_four (y : N) : (1000 ≤ y ≤ 9999)%N → length (pad0 4 y) = 4%nat.
Proof.
  intros Hy. rewrite dec_four_digits by assumption.
  pose proof four_digit_years_checked as H.
  rewrite forallb_forall in H.
  specialize (H (N.to_nat y)). rewrite N2Nat.id in H.
  apply Nat.eqb_eq, H, in_seq. lia.
Qed.

(** X17.  /health takes one reading of the clock and answers 200 with status ok
    and that reading in ISO form.  For a reading of a running clock the
    timestamp is a stamp of nineteen characters, with the letter T in the
    eleventh place, followed by the microseconds when they are not zero; the
    stamp is the text that the date and time fields of /time make for the
    same reading. *)
Theorem health_timestamp_layout (env : clock) (log : list clock_event) :
  let now := reading env (length log) in
  well_formed now →
  ∃ stamp,
    health_check env log
    = (Done (health_info (stamp ++ fraction now)), log ++ [ReadNow])
    ∧ length stamp = 19%nat
    ∧ stamp !! 10%nat = Some 84%N
    ∧ stamp = strftime_Ymd now ++ lit "T" ++ strftime_HMS now
    ∧ (fraction now = [] ↔ microsecond now = 0%N).
Proof.
  intros now (Hy & Hmo & Hd & Hh & Hmi & Hs & Hus).
  exists (strftime_Ymd now ++ lit "T" ++ strftime_HMS now).
  assert (Iso : isoformat now
                = (strftime_Ymd now ++ lit "T" ++ strftime_HMS now)
                  ++ fraction now).
  { unfold isoformat, strftime_Ymd, strftime_HMS.
    rewrite dec_four_digits by exact Hy.
    rewrite <- !app_assoc. reflexivity. }
  split.
  { unfold health_check, bind, datetime_now, ret, health_info.
    fold now. rewrite Iso. reflexivity. }
  unfold strftime_Ymd, strftime_HMS.
  rewrite <- (dec_four_digits (year now)) by exact Hy.
  pose proof (pad0_four (year now) Hy) as LY.
  pose proof (pad0_two (month now) ltac:(lia)) as LM.
  pose proof (pad0_two (day now) ltac:(lia)) as LD.
  pose proof (pad0_two (hour now) ltac:(lia)) as Lh.
  pose proof (pad0_two (minute now) ltac:(lia)) as Lm.
  pose proof (pad0_two (second now) ltac:(lia)) as Ls.
  split; [| split; [| split]].
  - rewrite !length_app, LY, LM, LD, Lh, Lm, Ls. reflexivity.
  - destruct (pad0 4 (year now)) as [| y1 [| y2 [| y3 [| y4 [| ? ?]]]]];
      try discriminate.
    destruct (pad0 2 (month now)) as [| m1 [| m2 [| ? ?]]]; try discriminate.
    destruct (pad0 2 (day now)) as [| d1 [| d2 [| ? ?]]]; try discriminate.
    reflexivity.
  - reflexivity.
  - unfold fraction. destruct (microsecond now =? 0)%N eqn:E.
    + apply N.eqb_eq in E. by split.
    + apply N.eqb_neq in E. split; [| congruence].
      change (lit ".") with [46%N]. discriminate.
Qed.

Lemma health_timestamp_layout_witness :
  ∃ stamp,
    health_check berlin_clock []
    = (Done (health_info (stamp ++ fraction quarter_past)), [ReadNow])
    ∧ length stamp = 19%nat
    ∧ stamp !! 10%nat = Some 84%N
    ∧ stamp = strftime_Ymd quarter_past ++ lit "T" ++ strftime_HMS quarter_past
    ∧ (fraction quarter_past = [] ↔ microsecond quarter_past = 0%N).
Proof.
  apply (health_timestamp_layout berlin_clock []).
  unfold well_formed. cbn. lia.
Defined.

(** * The layout of the /time fields *)

(** X18.  For a reading of a running clock whose conversion to the local
    zone returns, /time answers, the [date] field has ten characters with
    hyphens in the fifth and eighth places, and the [time] field has eight
    with colons in the third and sixth. *)
Theorem time_fields_layout (env : clock) (log : list clock_event) (tz : str) :
  let now := reading env (length log) in
  well_formed now →
  local_tzname env now = Done tz →
  ∃ d t,
    field "date" (get_time env log) = Some (JStr d)
    ∧ field "time" (get_time env log) = Some (JStr t)
    ∧ length d = 10%nat ∧ d !! 4%nat = Some 45%N ∧ d !! 7%nat = Some 45%N
    ∧ length t = 8%nat ∧ t !! 2%nat = Some 58%N ∧ t !! 5%nat = Some 58%N.
Proof.
  intros now (Hy & Hmo & Hd & Hh & Hmi & Hs & Hus) Htz.
  assert (Hrun : get_time env log
                 = (Done (time_info (isoformat now) (strftime_Ymd now)
                                    (strftime_HMS now) tz),
                    log ++ [ReadNow])).
  { unfold get_time, bind, datetime_now, ask, ret. fold now.
    rewrite Htz. reflexivity. }
  rewrite Hrun.
  exists (strftime_Ymd now), (strftime_HMS now).
  split; [reflexivity |]. split; [reflexivity |].
  unfold strftime_Ymd, strftime_HMS.
  rewrite <- (dec_four_digits (year now)) by exact Hy.
  pose proof (pad0_four (year now) Hy) as LY.
  pose proof (pad0_two (month now) ltac:(lia)) as LM.
  pose proof (pad0_two (day now) ltac:(lia)) as LD.
  pose proof (pad0_two (hour now) ltac:(lia)) as Lh.
  pose proof (pad0_two (minute now) ltac:(lia)) as Lm.
  pose proof (pad0_two (second now) ltac:(lia)) as Ls.
  destruct (pad0 4 (year now)) as [| y1 [| y2 [| y3 [| y4 [| ? ?]]]]];
    try discriminate.
  destruct (pad0 2 (month now)) as [| m1 [| m2 [| ? ?]]]; try discriminate.
  destruct (pad0 2 (day now)) as [| d1 [| d2 [| ? ?]]]; try discriminate.
  destruct (pad0 2 (hour now)) as [| h1 [| h2 [| ? ?]]]; try discriminate.
  destruct (pad0 2 (minute now)) as [| n1 [| n2 [| ? ?]]]; try discriminate.
  destruct (pad0 2 (second now)) as [| s1 [| s2 [| ? ?]]]; try discriminate.
  repeat split; reflexivity.
Qed.

Lemma time_fields_layout_witness :
  ∃ d t,
    field "date" (get_time berlin_clock []) = Some (JStr d)
    ∧ field "time" (get_time berlin_clock []) = Some (JStr t)
    ∧ length d = 10%nat ∧ d !! 4%nat = Some 45%N ∧ d !! 7%nat = Some 45%N
    ∧ length t = 8%nat ∧ t !! 2%nat = Some 58%N ∧ t !! 5%nat = Some 58%N.
Proof.
  apply (time_fields_layout berlin_clock [] (lit "CEST")).
  - unfold well_formed. cbn. lia.
  - reflexivity.
Defined.
